(** * Color converter: parsing and conversion between OKLCH, RGB and HEX

    A shallow embedding of [src/app/page.tsx] (the helper functions, the two
    colour-space transforms, [parseColor] and [convertColor]) together with
    the part of the ECMAScript runtime those functions call.

    - Strings are Rocq strings read as sequences of Latin-1 code points
      (U+0000 .. U+00FF).
    - Numbers are IEEE 754 binary64 values ([spec_float] with precision 53
      and maximal exponent 1024), rounded to nearest, ties to even.
    - The transcendental library functions ([Math.cos], [Math.pow], ...)
      are implementation-approximated in ECMA-262; only the results the
      standard fixes are built in, the rest is a parameter ([JSRuntime]). *)

From Stdlib Require Import ZArith List String Ascii Bool Lia.
From Stdlib Require Import Floats.SpecFloat.
Import ListNotations.

Local Open Scope string_scope.
Local Open Scope Z_scope.

(** ** ECMAScript strings *)

Module JSString.

Definition code (c : ascii) : Z := Z.of_nat (nat_of_ascii c).

Definition in_range (lo hi : Z) (c : ascii) : bool :=
  (lo <=? code c) && (code c <=? hi).

(** WhiteSpace and LineTerminator code points below U+0100: TAB, LF, VT,
    FF, CR, SP and NBSP. *)
Definition isWhiteSpace (c : ascii) : bool :=
  in_range 9 13 c || (code c =? 32) || (code c =? 160).

Definition lowerChar (c : ascii) : ascii :=
  if in_range 65 90 c || in_range 192 214 c || in_range 216 222 c
  then ascii_of_nat (nat_of_ascii c + 32)
  else c.

Fixpoint toLowerCase (s : string) : string :=
  match s with
  | EmptyString => EmptyString
  | String c r => String (lowerChar c) (toLowerCase r)
  end.

Fixpoint trimStart (s : string) : string :=
  match s with
  | EmptyString => EmptyString
  | String c r => if isWhiteSpace c then trimStart r else s
  end.

Fixpoint trimEnd (s : string) : string :=
  match s with
  | EmptyString => EmptyString
  | String c r =>
      match trimEnd r with
      | EmptyString => if isWhiteSpace c then EmptyString else String c EmptyString
      | r' => String c r'
      end
  end.

Definition trim (s : string) : string := trimStart (trimEnd s).

Definition len (s : string) : Z := Z.of_nat (String.length s).

Fixpoint startsWith (p s : string) : bool :=
  match p, s with
  | EmptyString, _ => true
  | String a p', String b s' => Ascii.eqb a b && startsWith p' s'
  | String _ _, EmptyString => false
  end.

Fixpoint drop (n : nat) (s : string) : string :=
  match n, s with
  | O, _ => s
  | S n', String _ r => drop n' r
  | S _, EmptyString => EmptyString
  end.

Fixpoint take (n : nat) (s : string) : string :=
  match n, s with
  | O, _ => EmptyString
  | S n', String c r => String c (take n' r)
  | S _, EmptyString => EmptyString
  end.

(** [String.prototype.substring]: both indices are clamped to
    [0, length] and swapped when the first exceeds the second. *)
Definition substring (s : string) (startIx endIx : Z) : string :=
  let l := len s in
  let a := Z.min (Z.max startIx 0) l in
  let b := Z.min (Z.max endIx 0) l in
  let from := Z.min a b in
  let to := Z.max a b in
  take (Z.to_nat (to - from)) (drop (Z.to_nat from) s).

(** [String.prototype.indexOf] for a one-character pattern; -1 when the
    character does not occur. *)
Fixpoint indexOfFrom (c : ascii) (s : string) (i : Z) : Z :=
  match s with
  | EmptyString => -1
  | String d r => if Ascii.eqb c d then i else indexOfFrom c r (i + 1)
  end.

Definition indexOf (c : ascii) (s : string) : Z := indexOfFrom c s 0.

(** [String.prototype.split] for a one-character separator.  The result
    always has at least one element. *)
Fixpoint split (sep : ascii) (s : string) : list string :=
  match s with
  | EmptyString => [EmptyString]
  | String c r =>
      if Ascii.eqb c sep then EmptyString :: split sep r
      else match split sep r with
           | t :: ts => String c t :: ts
           | [] => [String c EmptyString]
           end
  end.

(** [split(/\s+/)]: the separators are the maximal runs of white space.
    [afterWs] records that the previous character belonged to a run, so
    that the run yields a single separator. *)
Fixpoint splitWsFrom (afterWs : bool) (s : string) : list string :=
  match s with
  | EmptyString => [EmptyString]
  | String c r =>
      if isWhiteSpace c then
        if afterWs then splitWsFrom true r
        else EmptyString :: splitWsFrom true r
      else match splitWsFrom false r with
           | t :: ts => String c t :: ts
           | [] => [String c EmptyString]
           end
  end.

Definition splitWhitespace (s : string) : list string := splitWsFrom false s.

(** [s[i]] on a string, for an index below the length: the string of
    that one character.  (The program indexes [hex[0]], [hex[1]] and
    [hex[2]] only after testing [hex.length === 3].) *)
Definition charAt (s : string) (i : nat) : string := take 1 (drop i s).

(** [padStart(n, "0")]. *)
Definition padStart0 (n : nat) (s : string) : string :=
  string_of_list_ascii (repeat "0"%char (n - String.length s)) ++ s.

Definition join (l : list string) : string := String.concat "" l.

End JSString.

(** ** ECMAScript numbers: IEEE 754 binary64 *)

Module JSNumber.
Import JSString.

Definition number : Type := spec_float.

Definition prec : Z := 53.
Definition emax : Z := 1024.

Definition NaN : number := S754_nan.
Definition Infinity : number := S754_infinity false.
Definition posZero : number := S754_zero false.

Definition add : number -> number -> number := SFadd prec emax.
Definition sub : number -> number -> number := SFsub prec emax.
Definition mul : number -> number -> number := SFmul prec emax.
Definition div : number -> number -> number := SFdiv prec emax.
Definition neg : number -> number := SFopp.

(** The relational operators [<] and [<=]; both are false on NaN. *)
Definition lt : number -> number -> bool := SFltb.
Definition le : number -> number -> bool := SFleb.

(** The global [isNaN] and [isFinite] on a number. *)
Definition isNaN (x : number) : bool :=
  match x with S754_nan => true | _ => false end.

Definition isFinite (x : number) : bool :=
  match x with S754_nan | S754_infinity _ => false | _ => true end.

(** The number for a mathematical integer (round to nearest even,
    overflow to an infinity). *)
Definition ofZ (n : Z) : number := binary_normalize prec emax n 0 false.

(** The number for [m * 10 ^ e10] with [0 <= m], correctly rounded; the
    sign is carried separately so that [-0] is kept. *)
Definition ofDecimal (sgn : bool) (m e10 : Z) : number :=
  match m with
  | Z0 => S754_zero sgn
  | Zpos p =>
      if 0 <=? e10 then binary_normalize prec emax (cond_Zopp sgn (m * 10 ^ e10)) 0 false
      else let '(q, e, l) := SFdiv_core_binary prec emax m 0 (10 ^ (- e10)) 0 in
           binary_round_aux prec emax sgn q e l
  | Zneg _ => NaN
  end.

(** *** Digits *)

Definition digitValue (c : ascii) : option Z :=
  if in_range 48 57 c then Some (code c - 48)
  else if in_range 97 122 c then Some (code c - 87)
  else if in_range 65 90 c then Some (code c - 55)
  else None.

Definition radixDigit (radix : Z) (c : ascii) : option Z :=
  match digitValue c with
  | Some v => if v <? radix then Some v else None
  | None => None
  end.

(** Longest prefix of digits of the radix: its value (on top of [acc]),
    its length (on top of [n]) and the rest of the string. *)
Fixpoint scanDigits (radix : Z) (s : string) (acc : Z) (n : nat) : Z * nat * string :=
  match s with
  | EmptyString => (acc, n, s)
  | String c r =>
      match radixDigit radix c with
      | Some v => scanDigits radix r (acc * radix + v) (S n)
      | None => (acc, n, s)
      end
  end.

(** *** StringToNumber (the [Number] function applied to a string) *)

Inductive literal : Type :=
| LitInfinity
| LitDecimal (m e10 : Z).

(** SignedInteger of an ExponentPart: the whole rest of the string. *)
Definition parseSignedInteger (s : string) : option Z :=
  let '(sgn, r) :=
    match s with
    | String "+"%char r => (1, r)
    | String "-"%char r => (-1, r)
    | _ => (1, s)
    end in
  let '(v, n, rest) := scanDigits 10 r 0 0 in
  match n, rest with
  | S _, EmptyString => Some (sgn * v)
  | _, _ => None
  end.

Definition parseExponentOpt (s : string) : option Z :=
  match s with
  | EmptyString => Some 0
  | String c r =>
      if Ascii.eqb c "e" || Ascii.eqb c "E" then parseSignedInteger r else None
  end.

(** StrUnsignedDecimalLiteral. *)
Definition parseUnsignedDecimal (s : string) : option literal :=
  if String.eqb s "Infinity" then Some LitInfinity
  else
    let '(iv, il, r1) := scanDigits 10 s 0 0 in
    match r1 with
    | String "."%char r2 =>
        let '(mv, fl, r3) := scanDigits 10 r2 iv 0 in
        match il, fl with
        | O, O => None
        | _, _ =>
            match parseExponentOpt r3 with
            | Some e => Some (LitDecimal mv (e - Z.of_nat fl))
            | None => None
            end
        end
    | _ =>
        match il with
        | O => None
        | S _ =>
            match parseExponentOpt r1 with
            | Some e => Some (LitDecimal iv e)
            | None => None
            end
        end
    end.

Definition literalValue (sgn : bool) (l : option literal) : number :=
  match l with
  | Some LitInfinity => S754_infinity sgn
  | Some (LitDecimal m e10) => ofDecimal sgn m e10
  | None => NaN
  end.

(** NonDecimalIntegerLiteral body: one or more digits of the radix and
    nothing else. *)
Definition parseRadixInteger (radix : Z) (s : string) : number :=
  let '(v, n, rest) := scanDigits radix s 0 0 in
  match n, rest with
  | S _, EmptyString => ofZ v
  | _, _ => NaN
  end.

Definition StringToNumber (s : string) : number :=
  match trim s with
  | EmptyString => posZero
  | String "+"%char r => literalValue false (parseUnsignedDecimal r)
  | String "-"%char r => literalValue true (parseUnsignedDecimal r)
  | String "0"%char (String x r) as t =>
      if Ascii.eqb x "x" || Ascii.eqb x "X" then parseRadixInteger 16 r
      else if Ascii.eqb x "o" || Ascii.eqb x "O" then parseRadixInteger 8 r
      else if Ascii.eqb x "b" || Ascii.eqb x "B" then parseRadixInteger 2 r
      else literalValue false (parseUnsignedDecimal t)
  | t => literalValue false (parseUnsignedDecimal t)
  end.

(** [Number(s)] for a string argument.  The value is the correctly
    rounded one, as engines compute it (ECMA-262 leaves a choice of two
    neighbours only past 20 significant digits). *)
Definition Number (s : string) : number := StringToNumber s.

(** A decimal literal of the source text has the value of the same text
    under [StringToNumber]. *)
Definition lit (s : string) : number := StringToNumber s.

(** *** parseInt *)

Definition parseInt (s : string) (radix : Z) : number :=
  let s0 := trimStart s in
  let '(sgn, s1) :=
    match s0 with
    | String "-"%char r => (true, r)
    | String "+"%char r => (false, r)
    | _ => (false, s0)
    end in
  let '(r0, stripPrefix) := if radix =? 0 then (10, true) else (radix, radix =? 16) in
  if (r0 <? 2) || (36 <? r0) then NaN
  else
    let '(r1, s2) :=
      match s1 with
      | String "0"%char (String x r) =>
          if stripPrefix && (Ascii.eqb x "x" || Ascii.eqb x "X") then (16, r) else (r0, s1)
      | _ => (r0, s1)
      end in
    let '(v, n, _) := scanDigits r1 s2 0 0 in
    match n with
    | O => NaN
    | S _ => if v =? 0 then S754_zero sgn else ofZ (cond_Zopp sgn v)
    end.

(** *** Math.max, Math.min, Math.round *)

Definition Math_max (a b : number) : number :=
  match SFcompare a b with
  | None => NaN
  | Some Lt => b
  | Some Gt => a
  | Some Eq =>
      match a, b with
      | S754_zero sa, S754_zero sb => S754_zero (sa && sb)
      | _, _ => a
      end
  end.

Definition Math_min (a b : number) : number :=
  match SFcompare a b with
  | None => NaN
  | Some Lt => a
  | Some Gt => b
  | Some Eq =>
      match a, b with
      | S754_zero sa, S754_zero sb => S754_zero (sa || sb)
      | _, _ => a
      end
  end.

(** [Math.round]: the closest integer, ties towards +Infinity; a result
    of zero keeps the sign of the argument. *)
Definition Math_round (x : number) : number :=
  match x with
  | S754_finite s m e =>
      if 0 <=? e then x
      else
        let d := 2 ^ (- e) in
        let n := (2 * cond_Zopp s (Zpos m) + d) / (2 * d) in
        if n =? 0 then S754_zero s else ofZ n
  | _ => x
  end.

(** *** Integral numbers and their digits *)

(** The mathematical value of a number that is an integer. *)
Definition integerValue (x : number) : option Z :=
  match x with
  | S754_zero _ => Some 0
  | S754_finite s m e =>
      if 0 <=? e then Some (cond_Zopp s (Zpos m * 2 ^ e))
      else if Zpos m mod 2 ^ (- e) =? 0 then Some (cond_Zopp s (Zpos m / 2 ^ (- e)))
      else None
  | _ => None
  end.

Definition digitChar (v : Z) : ascii :=
  ascii_of_nat (Z.to_nat (if v <? 10 then 48 + v else 87 + v)).

Fixpoint digitsFuel (fuel : nat) (radix n : Z) (acc : string) : string :=
  match fuel with
  | O => acc
  | S f =>
      let acc' := String (digitChar (n mod radix)) acc in
      if n / radix =? 0 then acc' else digitsFuel f radix (n / radix) acc'
  end.

(** The digits of [0 <= n] in the radix, most significant first. *)
Definition digits (radix n : Z) : string :=
  digitsFuel (S (Z.to_nat (Z.log2 n))) radix n "".

End JSNumber.

Declare Scope num_scope.
Delimit Scope num_scope with num.
Bind Scope num_scope with JSNumber.number.
Infix "+" := JSNumber.add : num_scope.
Infix "-" := JSNumber.sub : num_scope.
Infix "*" := JSNumber.mul : num_scope.
Infix "/" := JSNumber.div : num_scope.
Infix "<=?" := JSNumber.le : num_scope.
Infix "<?" := JSNumber.lt : num_scope.
Notation "- x" := (JSNumber.neg x) : num_scope.

(** ** The implementation-approximated part of the runtime

    ECMA-262 leaves the values of the transcendental [Math] functions, and
    the digits of a number that is not a safe integer, to the
    implementation up to the special cases it lists.  Each field below is
    consulted only outside those special cases. *)

Class JSRuntime : Type := {
  cos_approx : JSNumber.number -> JSNumber.number;
  sin_approx : JSNumber.number -> JSNumber.number;
  cbrt_approx : JSNumber.number -> JSNumber.number;
  sqrt_approx : JSNumber.number -> JSNumber.number;
  pow_approx : JSNumber.number -> JSNumber.number -> JSNumber.number;
  atan2_approx : JSNumber.number -> JSNumber.number -> JSNumber.number;
  (** digits of a finite number in a radix, beyond the safe integers *)
  toString_approx : JSNumber.number -> Z -> string
}.

Module JSMath.
Import JSString JSNumber.

Section WithRuntime.
Context {RT : JSRuntime}.

(** [Math.PI], the binary64 value nearest to pi. *)
Definition Math_PI : number := S754_finite false 7074237752028440 (-51).

Definition Math_cos (x : number) : number :=
  match x with
  | S754_nan | S754_infinity _ => NaN
  | S754_zero _ => ofZ 1
  | S754_finite _ _ _ => cos_approx x
  end.

Definition Math_sin (x : number) : number :=
  match x with
  | S754_nan | S754_zero _ => x
  | S754_infinity _ => NaN
  | S754_finite _ _ _ => sin_approx x
  end.

Definition Math_cbrt (x : number) : number :=
  match x with
  | S754_finite _ _ _ => cbrt_approx x
  | _ => x
  end.

Definition Math_sqrt (x : number) : number :=
  match x with
  | S754_nan | S754_zero _ | S754_infinity false => x
  | S754_infinity true | S754_finite true _ _ => NaN
  | S754_finite false _ _ => sqrt_approx x
  end.

(** [Math.pow]: a NaN exponent gives NaN, a zero exponent gives 1 even
    for a NaN base, and otherwise a NaN base gives NaN. *)
Definition Math_pow (base exponent : number) : number :=
  match exponent, base with
  | S754_nan, _ => NaN
  | S754_zero _, _ => ofZ 1
  | _, S754_nan => NaN
  | _, _ => pow_approx base exponent
  end.

(** [Math.atan2 y x]: NaN when either argument is NaN; a zero [y] with
    [x] positive or [+0] is returned as it is. *)
Definition Math_atan2 (y x : number) : number :=
  match y, x with
  | S754_nan, _ | _, S754_nan => NaN
  | S754_zero _, (S754_zero false | S754_infinity false | S754_finite false _ _) => y
  | _, _ => atan2_approx y x
  end.

(** [Number::toString(x, radix)].  For an integer of magnitude below
    2^53 the digits are those of the integer. *)
Definition toString (x : number) (radix : Z) : string :=
  match x with
  | S754_nan => "NaN"
  | S754_zero _ => "0"
  | S754_infinity s => if s then "-Infinity" else "Infinity"
  | S754_finite s _ _ =>
      match integerValue x with
      | Some n =>
          if Z.abs n <? 2 ^ 53
          then (if s then "-" else "") ++ digits radix (Z.abs n)
          else toString_approx x radix
      | None => toString_approx x radix
      end
  end.

(** Digits of [n] with a point before the last [f] of them, padded with
    zeros on the left to at least [f + 1] digits. *)
Definition fixedDigits (n : Z) (f : nat) : string :=
  let m := digits 10 n in
  match f with
  | O => m
  | S _ =>
      let m := padStart0 (S f) m in
      let k := String.length m in
      take (k - f) m ++ "." ++ drop (k - f) m
  end.

(** [Number.prototype.toFixed(f)] for [0 <= f <= 100]: the integer [n]
    nearest to [x * 10^f], the larger one on a tie, written with [f]
    digits after the point. *)
Definition toFixed (x : number) (f : nat) : string :=
  match x with
  | S754_nan | S754_infinity _ => toString x 10
  | S754_zero _ => fixedDigits 0 f
  | S754_finite s m e =>
      let p := 10 ^ Z.of_nat f in
      let big := if 0 <=? e then 10 ^ 21 <=? Zpos m * 2 ^ e
                 else 10 ^ 21 * 2 ^ (- e) <=? Zpos m in
      let n := if 0 <=? e then Zpos m * 2 ^ e * p
               else (2 * Zpos m * p + 2 ^ (- e)) / (2 * 2 ^ (- e)) in
      (if s then "-" else "") ++
      (if big then toString (SFabs x) 10 else fixedDigits n f)
  end.

End WithRuntime.
End JSMath.

(** ** The program: [src/app/page.tsx] *)

(** The result of [parseColor]: [{ format: string; values: number[] }]. *)
Module ParseResult.
Record t : Type := mk { format : string; values : list JSNumber.number }.
End ParseResult.

(** An element of the result of [convertColor]:
    [{ format: string; value: string }]. *)
Module Conversion.
Record t : Type := mk { format : string; value : string }.
End Conversion.

Module ColorConverter.
Import JSString JSNumber JSMath.

(** A value read from an array or received as an argument: a number, or
    [undefined] when the index is past the end. *)
Definition jsval : Type := option number.

(** [values[i]]. *)
Definition at_index (values : list number) (i : nat) : jsval := nth_error values i.

(** ToNumber, applied by the arithmetic operators and by [Math.min]. *)
Definition toNumber (v : jsval) : number :=
  match v with
  | Some x => x
  | None => NaN
  end.

Section WithRuntime.
Context {RT : JSRuntime}.

(** A value interpolated in a template literal. *)
Definition interpolate (v : jsval) : string :=
  match v with
  | Some x => toString x 10
  | None => "undefined"
  end.

(** *** Helper functions *)

(** [clamp(value, min = 0, max = 1)]; every call in the program passes
    both bounds. *)
Definition clamp (value min max : number) : number :=
  Math_max min (Math_min value max).

Definition linearTosRGB (c : number) : number :=
  let c := clamp c (lit "0") (lit "1") in
  if (c <=? lit "0.0031308")%num then (lit "12.92" * c)%num
  else (lit "1.055" * Math_pow c (lit "1" / lit "2.4") - lit "0.055")%num.

Definition sRGBtoLinear (c : number) : number :=
  let c := clamp c (lit "0") (lit "1") in
  if (c <=? lit "0.04045")%num then (c / lit "12.92")%num
  else Math_pow ((c + lit "0.055") / lit "1.055")%num (lit "2.4").

(** *** Core conversion functions *)

Definition oklchToRgb (l c h : jsval) : number * number * number :=
  let h : number :=
    match h with
    | None => lit "0"
    | Some x => if isNaN x then lit "0" else x
    end in
  let l := toNumber l in
  let c := toNumber c in
  let hRad := (h * (Math_PI / lit "180"))%num in
  let lab_l := l in
  let lab_a := (c * Math_cos hRad)%num in
  let lab_b := (c * Math_sin hRad)%num in
  let lms_l_ := (lab_l + lit "0.3963377774" * lab_a + lit "0.2158037573" * lab_b)%num in
  let lms_m_ := (lab_l - lit "0.1055613458" * lab_a - lit "0.0638541728" * lab_b)%num in
  let lms_s_ := (lab_l - lit "0.0894841775" * lab_a - lit "1.2914855480" * lab_b)%num in
  let lms_l := (lms_l_ * lms_l_ * lms_l_)%num in
  let lms_m := (lms_m_ * lms_m_ * lms_m_)%num in
  let lms_s := (lms_s_ * lms_s_ * lms_s_)%num in
  let linear_r :=
    (lit "4.0767468522" * lms_l - lit "3.3077115882" * lms_m + lit "0.2309647360" * lms_s)%num in
  let linear_g :=
    (- lit "1.2684380046" * lms_l + lit "2.6097574011" * lms_m - lit "0.3413193965" * lms_s)%num in
  let linear_b :=
    (- lit "0.0041960863" * lms_l - lit "0.7034186147" * lms_m + lit "1.7076147010" * lms_s)%num in
  let r_srgb := linearTosRGB linear_r in
  let g_srgb := linearTosRGB linear_g in
  let b_srgb := linearTosRGB linear_b in
  let r := Math_round (r_srgb * lit "255")%num in
  let g := Math_round (g_srgb * lit "255")%num in
  let b := Math_round (b_srgb * lit "255")%num in
  (clamp r (lit "0") (lit "255"),
   clamp g (lit "0") (lit "255"),
   clamp b (lit "0") (lit "255")).

Definition rgbToOklch (r g b : jsval) : number * number * number :=
  let r_linear := sRGBtoLinear (toNumber r / lit "255")%num in
  let g_linear := sRGBtoLinear (toNumber g / lit "255")%num in
  let b_linear := sRGBtoLinear (toNumber b / lit "255")%num in
  let lms_l :=
    (lit "0.4121656120" * r_linear + lit "0.5362752080" * g_linear + lit "0.0514575653" * b_linear)%num in
  let lms_m :=
    (lit "0.2118561070" * r_linear + lit "0.6807189584" * g_linear + lit "0.1074065790" * b_linear)%num in
  let lms_s :=
    (lit "0.0883097947" * r_linear + lit "0.2818474174" * g_linear + lit "0.6302613616" * b_linear)%num in
  let lms_l_ := Math_cbrt lms_l in
  let lms_m_ := Math_cbrt lms_m in
  let lms_s_ := Math_cbrt lms_s in
  let lab_l :=
    (lit "0.2104542553" * lms_l_ + lit "0.7936177850" * lms_m_ - lit "0.0040720468" * lms_s_)%num in
  let lab_a :=
    (lit "1.9779984951" * lms_l_ - lit "2.4285922050" * lms_m_ + lit "0.4505937099" * lms_s_)%num in
  let lab_b :=
    (lit "0.0259040371" * lms_l_ + lit "0.7827717662" * lms_m_ - lit "0.8086757660" * lms_s_)%num in
  let c := Math_sqrt (lab_a * lab_a + lab_b * lab_b)%num in
  let h := (Math_atan2 lab_b lab_a * (lit "180" / Math_PI))%num in
  let h := if (h <? lit "0")%num then (h + lit "360")%num else h in
  (clamp lab_l (lit "0") (lit "1"), c, h).

End WithRuntime.

(** *** Parsing *)

(** The body of a [try] block: [None] stands for leaving the block
    without a [return], by falling out of the [if] or by an exception
    that the empty [catch] swallows. *)
Definition orElse {A : Type} (attempt : option A) (next : A) : A :=
  match attempt with
  | Some r => r
  | None => next
  end.

Definition notNaN (v : number) : bool := negb (isNaN v).

(** The tokens of the [oklch(] form: the text after the prefix and
    without the last character, up to the first [/], trimmed and split
    at white space.  [parts[0]] is [undefined] only for an empty array,
    and calling [trim] on it would throw. *)
Definition oklchTokens (cleaned : string) : option (list string) :=
  let parts := split "/" (substring cleaned 6 (len cleaned - 1)) in
  match nth_error parts 0 with
  | Some p0 => Some (splitWhitespace (trim p0))
  | None => None
  end.

Definition parseOklch (cleaned : string) : option ParseResult.t :=
  match oklchTokens cleaned with
  | Some tokens =>
      let values := map Number tokens in
      if (List.length values =? 3)%nat && forallb notNaN values
      then Some (ParseResult.mk "oklch" values)
      else None
  | None => None
  end.

(** The tokens of the [rgb] form: the text after the first [(] and
    without the last character, split at commas. *)
Definition rgbTokens (cleaned : string) : list string :=
  split "," (substring cleaned (indexOf "(" cleaned + 1) (len cleaned - 1)).

Definition parseRgb (cleaned : string) : option ParseResult.t :=
  let values := map (fun v => Number (trim v)) (rgbTokens cleaned) in
  if ((List.length values =? 3)%nat || (List.length values =? 4)%nat) && forallb notNaN values
  then Some (ParseResult.mk (if (List.length values =? 4)%nat then "rgba" else "rgb") values)
  else None.

Definition parseHex (cleaned : string) : option ParseResult.t :=
  let hex := substring cleaned 1 (len cleaned) in
  let hex :=
    if (String.length hex =? 3)%nat
    then charAt hex 0 ++ charAt hex 0 ++ charAt hex 1 ++ charAt hex 1
         ++ charAt hex 2 ++ charAt hex 2
    else hex in
  if (String.length hex =? 6)%nat then
    let r := parseInt (substring hex 0 2) 16 in
    let g := parseInt (substring hex 2 4) 16 in
    let b := parseInt (substring hex 4 6) 16 in
    if notNaN r && notNaN g && notNaN b
    then Some (ParseResult.mk "hex" [r; g; b])
    else None
  else None.

Definition unknown : ParseResult.t := ParseResult.mk "unknown" [].

Definition parseColor (input : string) : ParseResult.t :=
  let cleaned := toLowerCase (trim input) in
  orElse (if startsWith "oklch(" cleaned then parseOklch cleaned else None)
  (orElse (if startsWith "rgb" cleaned then parseRgb cleaned else None)
  (orElse (if startsWith "#" cleaned then parseHex cleaned else None)
  unknown)).

(** *** Conversion *)

Section WithRuntime.
Context {RT : JSRuntime}.

(** [x.toString(16).padStart(2, "0")] *)
Definition hexByte (x : number) : string := padStart0 2 (toString x 16).

Definition oklchText (oklch : number * number * number) : string :=
  let '(l, c, h) := oklch in
  "oklch(" ++ toFixed l 4 ++ " " ++ toFixed c 4 ++ " " ++ toFixed h 2 ++ ")".

(** No operation inside the [try] block of the source can throw
    ([toFixed] is called with 4 and 2, [toString] with 16), so the
    [catch] branch is not represented. *)
Definition convertColor (format : string) (values : list number) : list Conversion.t :=
  if (List.length values =? 0)%nat || existsb isNaN values then []
  else if String.eqb format "oklch" then
    let '(r, g, b) :=
      oklchToRgb (at_index values 0) (at_index values 1) (at_index values 2) in
    [ Conversion.mk "rgb"
        ("rgb(" ++ toString r 10 ++ ", " ++ toString g 10 ++ ", " ++ toString b 10 ++ ")");
      Conversion.mk "hex" ("#" ++ join (map hexByte [r; g; b])) ]
  else if String.eqb format "rgb" || String.eqb format "rgba" then
    let r_rgb := clamp (toNumber (at_index values 0)) (lit "0") (lit "255") in
    let g_rgb := clamp (toNumber (at_index values 1)) (lit "0") (lit "255") in
    let b_rgb := clamp (toNumber (at_index values 2)) (lit "0") (lit "255") in
    let oklch := rgbToOklch (Some r_rgb) (Some g_rgb) (Some b_rgb) in
    [ Conversion.mk "oklch" (oklchText oklch);
      Conversion.mk "hex"
        ("#" ++ join (map (fun x => hexByte (Math_round x)) [r_rgb; g_rgb; b_rgb])) ]
  else if String.eqb format "hex" then
    let r_hex := at_index values 0 in
    let g_hex := at_index values 1 in
    let b_hex := at_index values 2 in
    let oklch := rgbToOklch r_hex g_hex b_hex in
    [ Conversion.mk "oklch" (oklchText oklch);
      Conversion.mk "rgb"
        ("rgb(" ++ interpolate r_hex ++ ", " ++ interpolate g_hex ++ ", "
         ++ interpolate b_hex ++ ")") ]
  else [].

End WithRuntime.
End ColorConverter.

(** ** Vocabulary of the properties *)

Module Props.
Import JSString JSNumber JSMath ColorConverter.

(** Every token converts to a number other than NaN. *)
Definition allNumeric (toNum : string -> number) (tokens : list string) : bool :=
  forallb (fun t => notNaN (toNum t)) tokens.

Definition formatTags : list string := ["oklch"; "rgb"; "rgba"; "hex"].

Definition isHexDigit (c : ascii) : bool :=
  in_range 48 57 c || in_range 97 102 c || in_range 65 70 c.

Fixpoint allChars (p : ascii -> bool) (s : string) : bool :=
  match s with
  | EmptyString => true
  | String c r => p c && allChars p r
  end.

(** The 6-character body obtained from a 3-character one by doubling
    each character. *)
Definition doubled (x y z : ascii) : string :=
  String x (String x (String y (String y (String z (String z EmptyString))))).

Definition noComma (c : ascii) : bool := negb (Ascii.eqb c ",").

(** A channel that is NaN or the number of an integer from 0 to 255. *)
Definition channelByte (v : number) : Prop :=
  isNaN v = true \/ exists n : Z, 0 <= n <= 255 /\ v = ofZ n.


(** Equality of numbers as data (so NaN equals NaN and the zeros
    differ), used to check facts by evaluation. *)
Definition number_eqb (x y : number) : bool :=
  match x, y with
  | S754_zero s, S754_zero s' => Bool.eqb s s'
  | S754_infinity s, S754_infinity s' => Bool.eqb s s'
  | S754_nan, S754_nan => true
  | S754_finite s m e, S754_finite s' m' e' =>
      Bool.eqb s s' && Pos.eqb m m' && Z.eqb e e'
  | _, _ => false
  end.

(** The check that the integer [k + 1] is kept by the clamp to
    [0, 255]. *)
Definition byteKept (k : nat) : bool :=
  let n := Z.of_nat (S k) in
  number_eqb (Math_max (lit "0") (Math_min (ofZ n) (lit "255"))) (ofZ n).

Definition allAscii : list ascii := map ascii_of_nat (seq 0 256).

Definition hexDigits : list ascii :=
  list_ascii_of_string "0123456789abcdefABCDEF".

Definition hexDigitListed (c : ascii) : bool :=
  if isHexDigit c
  then existsb (Ascii.eqb c) hexDigits && negb (isWhiteSpace c)
  else true.

Section WithRuntime.
Context {RT : JSRuntime}.

(** What the round trip through the [rgb(...)] text needs of a channel
    value [v]: its decimal text has no comma and no upper-case letter,
    and converts back to [v], also behind a space. *)
Definition rgbChannel (v : number) : Prop :=
  notNaN v = true /\
  allChars noComma (toString v 10) = true /\
  toLowerCase (toString v 10) = toString v 10 /\
  Number (trim (toString v 10)) = v /\
  Number (trim (" " ++ toString v 10)) = v.

(** The text of the [rgb] entry that the [hex] branch of
    [convertColor] writes. *)
Definition rgbText (r g b : number) : string :=
  "rgb(" ++ toString r 10 ++ ", " ++ toString g 10 ++ ", " ++ toString b 10 ++ ")".

(** The check run on every pair of hexadecimal digits: the byte they
    denote is a good channel value and is written back, by the [rgb]
    branch, as the same two digits in lower case. *)
Definition byteOk (c1 c2 : ascii) : bool :=
  let a := lowerChar c1 in
  let b := lowerChar c2 in
  let v := parseInt (String a (String b "")) 16 in
  let t := toString v 10 in
  notNaN v
  && String.eqb (hexByte (Math_round (clamp v (lit "0") (lit "255"))))
                (String a (String b ""))
  && number_eqb (Number (trim t)) v
  && number_eqb (Number (trim (" " ++ t))) v
  && allChars noComma t
  && String.eqb (toLowerCase t) t.

End WithRuntime.

(** [|cbrt x - y| < ulp y / den] for positive finite [x] and [y], decided
    on integers: with [x = mx * 2^ex] and [y = my * 2^ey] it reads
    [(den*my - 1)^3 * 2^(3 ey) < den^3 * mx * 2^ex < (den*my + 1)^3 * 2^(3 ey)]. *)
Definition cubeRootWithin (den : Z) (x y : number) : bool :=
  match x, y with
  | S754_finite false mx ex, S754_finite false my ey =>
      let e := Z.min (3 * ey) ex in
      let lo := (den * Zpos my - 1) ^ 3 * 2 ^ (3 * ey - e) in
      let mid := den ^ 3 * Zpos mx * 2 ^ (ex - e) in
      let hi := (den * Zpos my + 1) ^ 3 * 2 ^ (3 * ey - e) in
      (lo <? mid) && (mid <? hi)
  | _, _ => false
  end.

(** A runtime that is defined at the few points where the conversion of
    the colour [rgb(6, 0, 1.473993174149527)] consults one: the cube
    roots nearest to its three cone responses, the quotient for
    [Math.atan2] (what fdlibm returns for a quotient below 2^-29), the
    IEEE square root.  It only shows that the assumptions made on the
    runtime for that colour hold together. *)
Definition pointRuntime : JSRuntime :=
  {| cos_approx := fun _ => NaN;
     sin_approx := fun _ => NaN;
     cbrt_approx := fun x =>
       if number_eqb x (lit "0.0007736422546016371") then lit "0.0918008552582732"
       else if number_eqb x (lit "0.00043387761983389547") then lit "0.07570462566462259"
       else if number_eqb x (lit "0.0004428032881468424") then lit "0.0762202342309693"
       else NaN;
     sqrt_approx := SFsqrt prec emax;
     pow_approx := fun _ _ => NaN;
     atan2_approx := fun y x => (y / x)%num;
     toString_approx := fun _ _ => "" |}.

End Props.

(** ** The page: example gallery, colour cards and the input handler *)

(** An element of [exampleColors]: [{ label: string; value: string }]. *)
Module Example.
Record t : Type := mk { label : string; value : string }.
End Example.

(** The three pieces of state of [Home], as the handler leaves them. *)
Module PageState.
Record t : Type := mk {
  input : string;
  conversions : list Conversion.t;
  previewColor : string
}.
End PageState.

Module Page.
Import JSString JSNumber JSMath ColorConverter.

Definition exampleColors : list Example.t :=
  [ Example.mk "Deep Blue" "oklch(0.277 0.179 263.84)";
    Example.mk "Vibrant Red" "oklch(0.627 0.277 27.23)";
    Example.mk "Forest Green" "oklch(0.517 0.177 142.71)";
    Example.mk "Royal Purple" "#800080";
    Example.mk "Coral" "rgb(255, 127, 80)" ].

Section WithRuntime.
Context {RT : JSRuntime}.

(** [`#${values.map(x => x.toString(16).padStart(2, "0")).join("")}`] *)
Definition hexText (values : list number) : string :=
  "#" ++ join (map hexByte values).

(** [`rgb(${r}, ${g}, ${b})`] for three numbers. *)
Definition rgbOf (rgb : number * number * number) : string :=
  let '(r, g, b) := rgb in
  "rgb(" ++ toString r 10 ++ ", " ++ toString g 10 ++ ", " ++ toString b 10 ++ ")".

(** The [backgroundColor] that [ColorCard] computes for [color.value]. *)
Definition cardBackground (value : string) : string :=
  let p := parseColor value in
  let format := ParseResult.format p in
  let values := ParseResult.values p in
  if String.eqb format "oklch" && (List.length values =? 3)%nat then
    rgbOf (oklchToRgb (at_index values 0) (at_index values 1) (at_index values 2))
  else if String.eqb format "hex" && (List.length values =? 3)%nat then
    hexText values
  else if String.eqb format "rgb" && (List.length values =? 3)%nat then
    "rgb(" ++ interpolate (at_index values 0) ++ ", " ++ interpolate (at_index values 1)
    ++ ", " ++ interpolate (at_index values 2) ++ ")"
  else value.

(** [handleColorChange]: the state after the three setters have run.
    Nothing in the [try] block can throw, so its [catch] branch is not
    represented; every element of [values] is a number, so the test
    [typeof v === 'number'] is true. *)
Definition handleColorChange (value : string) : PageState.t :=
  let p := parseColor value in
  let format := ParseResult.format p in
  let values := ParseResult.values p in
  if negb (String.eqb format "unknown") && forallb notNaN values then
    let results := convertColor format values in
    let displayColor :=
      if String.eqb format "oklch" then
        rgbOf (oklchToRgb (at_index values 0) (at_index values 1) (at_index values 2))
      else if String.eqb format "rgb" || String.eqb format "rgba" then
        "rgb(" ++ toString (clamp (toNumber (at_index values 0)) (lit "0") (lit "255")) 10
        ++ ", " ++ toString (clamp (toNumber (at_index values 1)) (lit "0") (lit "255")) 10
        ++ ", " ++ toString (clamp (toNumber (at_index values 2)) (lit "0") (lit "255")) 10
        ++ ")"
      else if String.eqb format "hex" then hexText values
      else "" in
    PageState.mk value results displayColor
  else PageState.mk value [] "".

End WithRuntime.

(** What [Home] renders of a state: the preview swatch
    ([previewColor &&]), the list of conversions
    ([conversions.length > 0]), the message for an invalid colour
    ([input && conversions.length === 0]) and the hint ([!input]). *)
Definition nonEmpty (s : string) : bool :=
  match s with EmptyString => false | String _ _ => true end.

Definition showsSwatch (st : PageState.t) : bool :=
  nonEmpty (PageState.previewColor st).

Definition showsConversions (st : PageState.t) : bool :=
  (0 <? List.length (PageState.conversions st))%nat.

Definition showsInvalid (st : PageState.t) : bool :=
  nonEmpty (PageState.input st) && (List.length (PageState.conversions st) =? 0)%nat.

Definition showsHint (st : PageState.t) : bool :=
  negb (nonEmpty (PageState.input st)).

End Page.

(** ** Further vocabulary of the properties *)

Module Checks.
Import JSString JSNumber JSMath ColorConverter Props.

(** A character other than [d]. *)
Definition notChar (d c : ascii) : bool := negb (Ascii.eqb c d).

(** An integer from -15 to 255, the zero of either sign included. *)
Definition hexValue (v : number) : bool :=
  match integerValue v with
  | Some n => (-15 <=? n) && (n <=? 255)
  | None => false
  end.

(** The check run on every pair of characters: what [parseInt] reads
    from them in radix 16 is NaN or an integer from -15 to 255. *)
Definition hexPairRange (a b : ascii) : bool :=
  let v := parseInt (String a (String b "")) 16 in
  isNaN v || hexValue v.

(** The checks run on every character: lower-casing keeps white space
    and the characters [/], [(] and [,] apart from the others, and
    changes no lower-cased character. *)
Definition lowerCharKeeps (c : ascii) : bool :=
  Bool.eqb (isWhiteSpace (lowerChar c)) (isWhiteSpace c)
  && Bool.eqb (Ascii.eqb (lowerChar c) "/") (Ascii.eqb c "/")
  && Bool.eqb (Ascii.eqb (lowerChar c) "(") (Ascii.eqb c "(")
  && Bool.eqb (Ascii.eqb (lowerChar c) ",") (Ascii.eqb c ",")
  && Ascii.eqb (lowerChar (lowerChar c)) (lowerChar c).

(** What the texts written for the byte [n] must satisfy to be read
    back: the decimal text as by [rgbChannel], the two hexadecimal digits
    as themselves, in lower case and without white space. *)
Section WithRuntime.
Context {RT : JSRuntime}.

Definition byteTexts (n : Z) : bool :=
  let v := ofZ n in
  let t := toString v 10 in
  let x := hexByte v in
  notNaN v
  && allChars noComma t
  && String.eqb (toLowerCase t) t
  && number_eqb (Number (trim t)) v
  && number_eqb (Number (trim (" " ++ t))) v
  && (String.length x =? 2)%nat
  && allChars isHexDigit x
  && String.eqb (toLowerCase x) x
  && number_eqb (parseInt x 16) v
  && number_eqb (Math_round (clamp v (lit "0") (lit "255"))) v.

(** The check run on every pair of hexadecimal digits: the byte they
    denote in lower case is a number whose two hexadecimal digits,
    as written by [toString(16)] and [padStart], are that pair. *)
Definition hexPairWritten (c1 c2 : ascii) : bool :=
  let a := lowerChar c1 in
  let b := lowerChar c2 in
  let v := parseInt (String a (String b "")) 16 in
  notNaN v && isHexDigit a && isHexDigit b
  && String.eqb (hexByte v) (String a (String b "")).

End WithRuntime.

(** A value that the clamp to [0, 255] leaves as it is. *)
Definition clampKept (v : number) : bool :=
  number_eqb (clamp v (lit "0") (lit "255")) v.

(** The number of the three panels below the input (conversions,
    message for an invalid colour, hint) that a state shows. *)
Definition panelsShown (st : PageState.t) : nat :=
  (if Page.showsConversions st then 1 else 0)
  + (if Page.showsInvalid st then 1 else 0)
  + (if Page.showsHint st then 1 else 0).

(** The integers from 0 to 255. *)
Definition bytes : list Z := map Z.of_nat (seq 0 256).

End Checks.

(** ** Properties *)

Module Properties.
Import JSString JSNumber JSMath ColorConverter Props.

(** Closed facts are settled by evaluating the embedding. *)
Ltac evaluate := vm_compute; reflexivity.

(** *** Strings *)

Lemma append_assoc (a b c : string) : (a ++ b) ++ c = a ++ (b ++ c).
Proof. induction a as [|x a IH]; cbn [append]; [reflexivity|now rewrite IH]. Qed.

Lemma length_append (a b : string) :
  String.length (a ++ b) = (String.length a + String.length b)%nat.
Proof.
  induction a as [|x a IH]; cbn [append String.length]; [reflexivity|now rewrite IH].
Qed.

Lemma drop_append (a b : string) : drop (String.length a) (a ++ b) = b.
Proof. induction a as [|x a IH]; cbn; auto. Qed.

Lemma take_append (a b : string) : take (String.length a) (a ++ b) = a.
Proof.
  induction a as [|x a IH]; cbn; [destruct b; reflexivity|now rewrite IH].
Qed.

Lemma toLowerCase_append (a b : string) :
  toLowerCase (a ++ b) = toLowerCase a ++ toLowerCase b.
Proof.
  induction a as [|x a IH]; cbn [append toLowerCase]; [reflexivity|now rewrite IH].
Qed.

Lemma trimEnd_cons (c : ascii) (r : string) :
  isWhiteSpace c = false -> trimEnd (String c r) = String c (trimEnd r).
Proof.
  intros H. cbn [trimEnd]. rewrite H. destruct (trimEnd r); reflexivity.
Qed.

Lemma trim_cons (c : ascii) (r : string) :
  isWhiteSpace c = false -> trim (String c r) = String c (trimEnd r).
Proof.
  intros H. unfold trim. rewrite (trimEnd_cons _ _ H).
  cbn [trimStart]. rewrite H. reflexivity.
Qed.

Lemma trimEnd_append_last (s : string) (d : ascii) :
  isWhiteSpace d = false -> trimEnd (s ++ String d "") = s ++ String d "".
Proof.
  intros H. induction s as [|x s IH].
  - cbn [append trimEnd]. now rewrite H.
  - cbn [append trimEnd]. rewrite IH. destruct s; reflexivity.
Qed.

Lemma trimEnd_3 (x y z : ascii) :
  trimEnd (String x (String y (String z ""))) =
    if isWhiteSpace z then
      if isWhiteSpace y then
        if isWhiteSpace x then "" else String x ""
      else String x (String y "")
    else String x (String y (String z "")).
Proof.
  cbn [trimEnd].
  destruct (isWhiteSpace z), (isWhiteSpace y), (isWhiteSpace x); reflexivity.
Qed.

Lemma trimEnd_doubled (x y z : ascii) :
  trimEnd (doubled x y z) =
    if isWhiteSpace z then
      if isWhiteSpace y then
        if isWhiteSpace x then "" else String x (String x "")
      else String x (String x (String y (String y "")))
    else doubled x y z.
Proof.
  unfold doubled. cbn [trimEnd].
  destruct (isWhiteSpace z), (isWhiteSpace y), (isWhiteSpace x); reflexivity.
Qed.

(** The text between a prefix and a final character, as the [rgb]
    branch of the parser cuts it out. *)
Lemma substring_middle (pre mid : string) (c : ascii) :
  substring (pre ++ mid ++ String c "") (len pre)
            (len (pre ++ mid ++ String c "") - 1) = mid.
Proof.
  unfold substring, len.
  rewrite !length_append. cbn [String.length].
  set (p := String.length pre). set (m := String.length mid).
  set (n := (p + (m + 1))%nat).
  replace (Z.min (Z.max (Z.of_nat p) 0) (Z.of_nat n)) with (Z.of_nat p) by lia.
  replace (Z.min (Z.max (Z.of_nat n - 1) 0) (Z.of_nat n))
    with (Z.of_nat (p + m)) by lia.
  replace (Z.min (Z.of_nat p) (Z.of_nat (p + m))) with (Z.of_nat p) by lia.
  replace (Z.max (Z.of_nat p) (Z.of_nat (p + m)) - Z.of_nat p) with (Z.of_nat m) by lia.
  rewrite !Nat2Z.id. subst p m.
  rewrite drop_append. apply take_append.
Qed.

Lemma split_cons (sep : ascii) (s : string) :
  exists t ts, split sep s = t :: ts.
Proof.
  induction s as [|c r IH]; simpl.
  - eauto.
  - destruct (Ascii.eqb c sep); [eauto|].
    destruct IH as (t & ts & ->). eauto.
Qed.

Lemma split_no_sep (a : string) :
  allChars noComma a = true -> split "," a = [a].
Proof.
  induction a as [|x a IH]; [reflexivity|].
  cbn [allChars split]. intros H. apply andb_prop in H as [Hx Ha].
  unfold noComma in Hx. destruct (Ascii.eqb x ","); [discriminate|].
  now rewrite (IH Ha).
Qed.

Lemma split_append (a b : string) :
  allChars noComma a = true -> split "," (a ++ String "," b) = a :: split "," b.
Proof.
  induction a as [|x a IH]; [reflexivity|].
  cbn [allChars split append]. intros H. apply andb_prop in H as [Hx Ha].
  unfold noComma in Hx. destruct (Ascii.eqb x ","); [discriminate|].
  now rewrite (IH Ha).
Qed.

Lemma split_rgb_payload (tr tg tb : string) :
  allChars noComma tr = true ->
  allChars noComma tg = true ->
  allChars noComma tb = true ->
  split "," (tr ++ ", " ++ tg ++ ", " ++ tb) = [tr; " " ++ tg; " " ++ tb].
Proof.
  intros Hr Hg Hb.
  change (tr ++ ", " ++ tg ++ ", " ++ tb)
    with (tr ++ String "," ((" " ++ tg) ++ String "," (" " ++ tb))).
  rewrite (split_append tr) by exact Hr.
  rewrite (split_append (" " ++ tg)) by exact Hg.
  rewrite (split_no_sep (" " ++ tb)) by exact Hb.
  reflexivity.
Qed.

Lemma startsWith_oklch_excl (s : string) :
  startsWith "oklch(" s = true ->
  startsWith "rgb" s = false /\ startsWith "#" s = false.
Proof.
  destruct s as [|c r]; [discriminate|].
  cbn [startsWith].
  destruct (Ascii.eqb_spec "o" c) as [<-|]; [|discriminate].
  intros _. split; reflexivity.
Qed.

Lemma startsWith_rgb_excl (s : string) :
  startsWith "rgb" s = true ->
  startsWith "oklch(" s = false /\ startsWith "#" s = false.
Proof.
  destruct s as [|c r]; [discriminate|].
  cbn [startsWith].
  destruct (Ascii.eqb_spec "r" c) as [<-|]; [|discriminate].
  intros _. split; reflexivity.
Qed.

Lemma forallb_map {A B : Type} (f : A -> B) (p : B -> bool) (l : list A) :
  forallb p (map f l) = forallb (fun a => p (f a)) l.
Proof. induction l; simpl; congruence. Qed.

(** *** Checking by enumeration *)

Lemma number_eqb_eq (x y : number) : number_eqb x y = true -> x = y.
Proof.
  destruct x as [s|s| |s m e], y as [s'|s'| |s' m' e']; cbn; try discriminate; auto.
  - intros H. apply Bool.eqb_prop in H. congruence.
  - intros H. apply Bool.eqb_prop in H. congruence.
  - intros H. apply andb_prop in H as [H He]. apply andb_prop in H as [Hs Hm].
    apply Bool.eqb_prop in Hs. apply Pos.eqb_eq in Hm. apply Z.eqb_eq in He.
    congruence.
Qed.

Lemma allAscii_complete (c : ascii) : In c allAscii.
Proof.
  unfold allAscii. rewrite <- (ascii_nat_embedding c).
  apply in_map. apply in_seq. pose proof (nat_ascii_bounded c). lia.
Qed.

Lemma forall_ascii (p : ascii -> bool) :
  forallb p allAscii = true -> forall a, p a = true.
Proof.
  intros H a. rewrite forallb_forall in H. exact (H a (allAscii_complete a)).
Qed.

Lemma isHexDigit_listed (c : ascii) :
  isHexDigit c = true -> In c hexDigits /\ isWhiteSpace c = false.
Proof.
  intros H.
  assert (A : hexDigitListed c = true).
  { clear H. revert c. apply forall_ascii. evaluate. }
  unfold hexDigitListed in A. rewrite H in A.
  apply andb_prop in A as [A B]. split.
  - apply existsb_exists in A as (d & Hd & E). apply Ascii.eqb_eq in E. congruence.
  - now destruct (isWhiteSpace c).
Qed.

(** *** The parser *)

(** The access [parts[0]] in the [oklch] branch is always defined: the
    [try] block is never left through its [catch]. *)
Lemma oklchTokens_defined (cleaned : string) :
  exists tokens, oklchTokens cleaned = Some tokens.
Proof.
  unfold oklchTokens.
  destruct (split_cons "/" (substring cleaned 6 (len cleaned - 1))) as (t & ts & ->).
  simpl. eauto.
Qed.

Lemma parseOklch_shape (cleaned : string) (r : ParseResult.t) :
  parseOklch cleaned = Some r ->
  ParseResult.format r = "oklch" /\
  List.length (ParseResult.values r) = 3%nat /\
  forallb notNaN (ParseResult.values r) = true.
Proof.
  unfold parseOklch.
  destruct (oklchTokens cleaned) as [tokens|]; [|discriminate].
  destruct (Nat.eqb_spec (List.length (map Number tokens)) 3) as [E|]; [|discriminate].
  destruct (forallb notNaN (map Number tokens)) eqn:A; [|discriminate].
  intros [= <-]. auto.
Qed.

Lemma parseRgb_shape (cleaned : string) (r : ParseResult.t) :
  parseRgb cleaned = Some r ->
  forallb notNaN (ParseResult.values r) = true /\
  ((ParseResult.format r = "rgb" /\ List.length (ParseResult.values r) = 3%nat) \/
   (ParseResult.format r = "rgba" /\ List.length (ParseResult.values r) = 4%nat)).
Proof.
  unfold parseRgb.
  set (values := map _ _).
  destruct (forallb notNaN values) eqn:A; [|rewrite andb_false_r; discriminate].
  rewrite andb_true_r.
  destruct (Nat.eqb_spec (List.length values) 4) as [E4|N4].
  - rewrite orb_true_r. intros [= <-]. auto.
  - rewrite orb_false_r.
    destruct (Nat.eqb_spec (List.length values) 3) as [E3|]; [|discriminate].
    intros [= <-]. auto.
Qed.

Lemma parseHex_shape (cleaned : string) (r : ParseResult.t) :
  parseHex cleaned = Some r ->
  ParseResult.format r = "hex" /\
  List.length (ParseResult.values r) = 3%nat /\
  forallb notNaN (ParseResult.values r) = true.
Proof.
  unfold parseHex.
  set (hex := if (String.length _ =? 3)%nat then _ else _).
  destruct (String.length hex =? 6)%nat; [|discriminate].
  destruct (notNaN (parseInt (substring hex 0 2) 16)) eqn:A; [|discriminate].
  destruct (notNaN (parseInt (substring hex 2 4) 16)) eqn:B; [|discriminate].
  destruct (notNaN (parseInt (substring hex 4 6) 16)) eqn:C; [|discriminate].
  intros [= <-]. cbn [ParseResult.format ParseResult.values forallb List.length].
  rewrite A, B, C. auto.
Qed.

(** Every result of the parser is the unknown result or carries one of
    the four tags, with 3 values (4 for [rgba]), none of them NaN. *)
Lemma parseColor_cases (input : string) :
  parseColor input = unknown \/
  (forallb notNaN (ParseResult.values (parseColor input)) = true /\
   ((ParseResult.format (parseColor input) = "oklch" /\
     List.length (ParseResult.values (parseColor input)) = 3%nat) \/
    (ParseResult.format (parseColor input) = "rgb" /\
     List.length (ParseResult.values (parseColor input)) = 3%nat) \/
    (ParseResult.format (parseColor input) = "rgba" /\
     List.length (ParseResult.values (parseColor input)) = 4%nat) \/
    (ParseResult.format (parseColor input) = "hex" /\
     List.length (ParseResult.values (parseColor input)) = 3%nat))).
Proof.
  unfold parseColor.
  set (cleaned := toLowerCase (trim input)).
  set (a1 := if startsWith "oklch(" cleaned then _ else _).
  set (a2 := if startsWith "rgb" cleaned then _ else _).
  set (a3 := if startsWith "#" cleaned then _ else _).
  destruct a1 as [r|] eqn:E1.
  { right. subst a1. destruct (startsWith "oklch(" cleaned); [|discriminate].
    apply parseOklch_shape in E1. cbn [orElse]. tauto. }
  destruct a2 as [r|] eqn:E2.
  { right. subst a2. destruct (startsWith "rgb" cleaned); [|discriminate].
    apply parseRgb_shape in E2. cbn [orElse]. tauto. }
  destruct a3 as [r|] eqn:E3.
  { right. subst a3. destruct (startsWith "#" cleaned); [|discriminate].
    apply parseHex_shape in E3. cbn [orElse]. tauto. }
  left. reflexivity.
Qed.

(** C2 (as amended).  When the cleaned input starts with [oklch(], the
    parser answers [oklch] exactly when the payload has 3 tokens none of
    which converts to NaN; the values are then the converted tokens, and
    otherwise the answer is the unknown result.  A token that converts
    to an infinity is accepted. *)
Theorem parseColor_oklch (input : string) :
  let cleaned := toLowerCase (trim input) in
  startsWith "oklch(" cleaned = true ->
  exists tokens,
    oklchTokens cleaned = Some tokens /\
    (ParseResult.format (parseColor input) = "oklch" <->
       List.length tokens = 3%nat /\ allNumeric Number tokens = true) /\
    (ParseResult.format (parseColor input) = "oklch" ->
       ParseResult.values (parseColor input) = map Number tokens) /\
    (ParseResult.format (parseColor input) <> "oklch" ->
       parseColor input = unknown).
Proof.
  intros cleaned H.
  destruct (oklchTokens_defined cleaned) as (tokens & Htok).
  exists tokens. split; [exact Htok|].
  destruct (startsWith_oklch_excl _ H) as [Hr Hh].
  unfold parseColor. fold cleaned. rewrite H, Hr, Hh.
  unfold parseOklch. rewrite Htok.
  rewrite length_map, forallb_map. fold (allNumeric Number tokens).
  destruct (Nat.eqb_spec (List.length tokens) 3) as [E|E];
    destruct (allNumeric Number tokens) eqn:A; cbn;
    repeat split; try tauto; try discriminate; try congruence; intuition congruence.
Qed.

Lemma parseColor_oklch_witness :
  startsWith "oklch(" (toLowerCase (trim "oklch(0.627 0.277 27.23)")) = true /\
  exists tokens,
    oklchTokens (toLowerCase (trim "oklch(0.627 0.277 27.23)")) = Some tokens /\
    (ParseResult.format (parseColor "oklch(0.627 0.277 27.23)") = "oklch" <->
       List.length tokens = 3%nat /\ allNumeric Number tokens = true) /\
    (ParseResult.format (parseColor "oklch(0.627 0.277 27.23)") = "oklch" ->
       ParseResult.values (parseColor "oklch(0.627 0.277 27.23)") = map Number tokens) /\
    (ParseResult.format (parseColor "oklch(0.627 0.277 27.23)") <> "oklch" ->
       parseColor "oklch(0.627 0.277 27.23)" = unknown).
Proof.
  split; [reflexivity|].
  apply (parseColor_oklch "oklch(0.627 0.277 27.23)"). reflexivity.
Defined.

(** C2, against the specification as written: the token [1e999]
    converts to Infinity, which is not finite, and the input is parsed
    as [oklch] all the same. *)
Lemma parseColor_oklch_accepts_infinite :
  startsWith "oklch(" (toLowerCase (trim "oklch(1e999 0 0)")) = true /\
  oklchTokens (toLowerCase (trim "oklch(1e999 0 0)")) = Some ["1e999"; "0"; "0"] /\
  Number "1e999" = Infinity /\
  isFinite (Number "1e999") = false /\
  parseColor "oklch(1e999 0 0)" = ParseResult.mk "oklch" [Infinity; posZero; posZero].
Proof. repeat split; evaluate. Qed.

(** C4 (as amended).  When the cleaned input starts with [rgb], the
    parser answers [rgb] exactly for 3 comma-separated tokens and [rgba]
    exactly for 4, provided no trimmed token converts to NaN; the values
    are then the converted tokens, and in every other case the answer is
    the unknown result.  An empty token converts to 0 and is accepted. *)
Theorem parseColor_rgb (input : string) :
  let cleaned := toLowerCase (trim input) in
  let tokens := rgbTokens cleaned in
  let numeric := allNumeric (fun t => Number (trim t)) tokens in
  startsWith "rgb" cleaned = true ->
  (ParseResult.format (parseColor input) = "rgb" <->
     List.length tokens = 3%nat /\ numeric = true) /\
  (ParseResult.format (parseColor input) = "rgba" <->
     List.length tokens = 4%nat /\ numeric = true) /\
  (ParseResult.format (parseColor input) = "rgb" \/
   ParseResult.format (parseColor input) = "rgba" ->
     ParseResult.values (parseColor input) = map (fun t => Number (trim t)) tokens) /\
  (ParseResult.format (parseColor input) <> "rgb" ->
   ParseResult.format (parseColor input) <> "rgba" ->
     parseColor input = unknown).
Proof.
  intros cleaned tokens numeric H.
  destruct (startsWith_rgb_excl _ H) as [Ho Hh].
  unfold parseColor. fold cleaned. rewrite H, Ho, Hh.
  unfold parseRgb. fold tokens.
  rewrite length_map, forallb_map.
  fold (allNumeric (fun t => Number (trim t)) tokens). fold numeric.
  destruct (Nat.eqb_spec (List.length tokens) 3) as [E3|E3];
    destruct (Nat.eqb_spec (List.length tokens) 4) as [E4|E4];
    destruct numeric eqn:A; cbn;
    repeat split; try tauto; try discriminate; try congruence; try lia;
    intuition (try congruence; try discriminate; try lia).
Qed.

Lemma parseColor_rgb_witness :
  startsWith "rgb" (toLowerCase (trim "rgb(255, 127, 80)")) = true /\
  (ParseResult.format (parseColor "rgb(255, 127, 80)") = "rgb" <->
     List.length (rgbTokens (toLowerCase (trim "rgb(255, 127, 80)"))) = 3%nat /\
     allNumeric (fun t => Number (trim t))
       (rgbTokens (toLowerCase (trim "rgb(255, 127, 80)"))) = true).
Proof.
  split; [reflexivity|].
  apply (parseColor_rgb "rgb(255, 127, 80)"). reflexivity.
Defined.

(** C4, against the specification as written: the third token of
    [rgb(1,2,)] is empty, and the input is parsed as [rgb] with the
    value 0 for it. *)
Lemma parseColor_rgb_accepts_empty_token :
  startsWith "rgb" (toLowerCase (trim "rgb(1,2,)")) = true /\
  rgbTokens (toLowerCase (trim "rgb(1,2,)")) = ["1"; "2"; ""] /\
  Number (trim "") = posZero /\
  parseColor "rgb(1,2,)" = ParseResult.mk "rgb" [ofZ 1; ofZ 2; posZero].
Proof. repeat split; evaluate. Qed.

(** C9.  The parser is total: every input yields one of the five tags,
    the unknown tag comes with no values, and the one access that could
    throw ([parts[0]]) is always defined.  The three malformed inputs of
    the specification yield the unknown result. *)
Theorem parseColor_total :
  (forall input : string,
     In (ParseResult.format (parseColor input)) ("unknown" :: formatTags) /\
     (ParseResult.format (parseColor input) = "unknown" ->
        ParseResult.values (parseColor input) = [])) /\
  (forall cleaned : string, oklchTokens cleaned <> None) /\
  parseColor "not a color" = ParseResult.mk "unknown" [] /\
  parseColor "oklch(1 2)" = ParseResult.mk "unknown" [] /\
  parseColor "rgb(1,2,3,4,5)" = ParseResult.mk "unknown" [].
Proof.
  split; [|split; [|repeat split; evaluate]].
  - intros input.
    destruct (parseColor_cases input) as [->|[_ Hc]].
    + split; [left|]; reflexivity.
    + destruct Hc as [[E _]|[[E _]|[[E _]|[E _]]]]; rewrite E; cbn;
        (split; [tauto | discriminate]).
  - intros cleaned. destruct (oklchTokens_defined cleaned) as (t & ->). discriminate.
Qed.

(** C10.  The body [1g2g3g] is not made of hexadecimal digits, yet
    [parseInt] reads the leading digit of each pair and the input is
    parsed as [hex] with the values 1, 2 and 3. *)
Theorem parseColor_hex_non_digits :
  allChars isHexDigit "1g2g3g" = false /\
  parseInt "1g" 16 = ofZ 1 /\
  parseColor "#1g2g3g" = ParseResult.mk "hex" [ofZ 1; ofZ 2; ofZ 3].
Proof. repeat split; evaluate. Qed.

Lemma parseColor_shorthand_any (x y z : ascii) :
  parseColor (String "#" (String x (String y (String z "")))) =
  parseColor (String "#" (doubled x y z)).
Proof.
  unfold parseColor.
  rewrite !trim_cons by reflexivity.
  rewrite trimEnd_3, trimEnd_doubled.
  destruct (isWhiteSpace z); [destruct (isWhiteSpace y); [destruct (isWhiteSpace x)|]|];
    reflexivity.
Qed.

(** C8.  A 3-character body after [#] is parsed as the 6-character body
    that doubles each of its characters, whatever the characters are; in
    particular [#abc] is parsed as [#aabbcc], to the bytes 170, 187, 204. *)
Theorem parseColor_shorthand :
  (forall x y z : ascii,
     parseColor (String "#" (String x (String y (String z "")))) =
     parseColor (String "#" (doubled x y z))) /\
  parseColor "#abc" = parseColor "#aabbcc" /\
  parseColor "#abc" = ParseResult.mk "hex" [ofZ 170; ofZ 187; ofZ 204].
Proof.
  split; [exact parseColor_shorthand_any|].
  split; [exact (parseColor_shorthand_any "a" "b" "c")|].
  evaluate.
Qed.

(** *** The orchestrator *)

Lemma notNaN_no_NaN (values : list number) :
  forallb notNaN values = true -> existsb isNaN values = false.
Proof.
  induction values as [|v vs IH]; simpl; [reflexivity|].
  unfold notNaN at 1. destruct (isNaN v); simpl; [discriminate|exact IH].
Qed.

Section WithRuntime.
Context {RT : JSRuntime}.

Lemma convertColor_formats_of (format : string) (values : list number) :
  values <> [] ->
  forallb notNaN values = true ->
  map Conversion.format (convertColor format values) =
    if String.eqb format "oklch" then ["rgb"; "hex"]
    else if String.eqb format "rgb" || String.eqb format "rgba" then ["oklch"; "hex"]
    else if String.eqb format "hex" then ["oklch"; "rgb"]
    else [].
Proof.
  intros Hne Hnn. unfold convertColor.
  rewrite (notNaN_no_NaN _ Hnn).
  destruct values as [|v vs]; [congruence|]. cbn [List.length Nat.eqb orb].
  destruct (String.eqb format "oklch").
  - destruct (oklchToRgb _ _ _) as [[r g] b]. reflexivity.
  - destruct (String.eqb format "rgb" || String.eqb format "rgba"); [reflexivity|].
    destruct (String.eqb format "hex"); reflexivity.
Qed.

(** C1.  On every input that the parser recognises, the orchestrator
    returns two entries whose tags are, in this order, [rgb; hex] for an
    [oklch] input (which has 3 values), [oklch; hex] for [rgb] and
    [rgba], and [oklch; rgb] for [hex]; the tag of the input is one of
    the four and is not among the returned tags. *)
Theorem convertColor_non_source_formats (input : string) :
  let p := parseColor input in
  let out := map Conversion.format
               (convertColor (ParseResult.format p) (ParseResult.values p)) in
  ParseResult.format p <> "unknown" ->
  (ParseResult.format p = "oklch" ->
     List.length (ParseResult.values p) = 3%nat /\ out = ["rgb"; "hex"]) /\
  (ParseResult.format p = "rgb" \/ ParseResult.format p = "rgba" ->
     out = ["oklch"; "hex"]) /\
  (ParseResult.format p = "hex" -> out = ["oklch"; "rgb"]) /\
  In (ParseResult.format p) formatTags /\
  ~ In (ParseResult.format p) out.
Proof.
  intros p out Hk. subst out.
  destruct (parseColor_cases input) as [U|[Hnn Hc]].
  { exfalso. apply Hk. unfold p. rewrite U. reflexivity. }
  fold p in Hnn, Hc.
  assert (Hne : ParseResult.values p <> []).
  { intros E. rewrite E in Hc. cbn in Hc. intuition discriminate. }
  rewrite (convertColor_formats_of _ _ Hne Hnn).
  destruct Hc as [[-> L]|[[-> L]|[[-> L]|[-> L]]]]; cbn;
    repeat split; try discriminate; try tauto; intuition discriminate.
Qed.

(** C3 (as amended).  The orchestrator returns the empty sequence when
    the tag is none of the four, when there are no values, and when some
    value is NaN. *)
Theorem convertColor_empty (format : string) (values : list number) :
  ~ In format formatTags \/ values = [] \/ (exists v, In v values /\ isNaN v = true) ->
  convertColor format values = [].
Proof.
  intros [Htag|[->|(v & Hin & Hv)]].
  - unfold convertColor.
    destruct (_ || _); [reflexivity|].
    destruct (String.eqb_spec format "oklch") as [->|_].
    { exfalso. apply Htag. cbn. auto. }
    destruct (String.eqb_spec format "rgb") as [->|_].
    { exfalso. apply Htag. cbn. auto. }
    destruct (String.eqb_spec format "rgba") as [->|_].
    { exfalso. apply Htag. cbn. auto. }
    destruct (String.eqb_spec format "hex") as [->|_].
    { exfalso. apply Htag. cbn. auto. }
    reflexivity.
  - reflexivity.
  - unfold convertColor.
    assert (E : existsb isNaN values = true).
    { apply existsb_exists. eauto. }
    rewrite E, orb_true_r. reflexivity.
Qed.

End WithRuntime.

Lemma convertColor_non_source_formats_witness :
  ParseResult.format (parseColor "#800080") <> "unknown" /\
  forall RT : JSRuntime,
    map Conversion.format
      (@convertColor RT (ParseResult.format (parseColor "#800080"))
                        (ParseResult.values (parseColor "#800080")))
    = ["oklch"; "rgb"].
Proof.
  assert (E : ParseResult.format (parseColor "#800080") = "hex")
    by evaluate.
  assert (K : ParseResult.format (parseColor "#800080") <> "unknown")
    by (rewrite E; discriminate).
  split; [exact K|]. intros RT.
  apply (@convertColor_non_source_formats RT "#800080"); [exact K|exact E].
Defined.

Lemma convertColor_empty_witness :
  (exists v, In v [NaN; posZero; posZero] /\ isNaN v = true) /\
  forall RT : JSRuntime, @convertColor RT "oklch" [NaN; posZero; posZero] = [].
Proof.
  assert (H : exists v, In v [NaN; posZero; posZero] /\ isNaN v = true).
  { exists NaN. split; [left|]; reflexivity. }
  split; [exact H|]. intros RT.
  apply (@convertColor_empty RT). right. right. exact H.
Defined.

(** C3, against the specification as written: Infinity is not finite,
    and on [Infinity; 0; 0] with the tag [oklch] the orchestrator returns
    two entries, on every runtime. *)
Lemma convertColor_infinite_not_empty :
  isFinite Infinity = false /\
  In Infinity [Infinity; posZero; posZero] /\
  forall RT : JSRuntime,
    @convertColor RT "oklch" [Infinity; posZero; posZero] =
      [ Conversion.mk "rgb" "rgb(NaN, NaN, NaN)";
        Conversion.mk "hex" "#NaNNaNNaN" ].
Proof.
  split; [reflexivity|]. split; [left; reflexivity|].
  intros RT. evaluate.
Qed.

(** *** The transforms *)

(** [clamp] does not bound NaN: [Math.min] and [Math.max] return NaN
    when an argument is NaN. *)
Lemma clamp_NaN (lo hi : number) : clamp NaN lo hi = NaN.
Proof. unfold clamp. cbn. destruct lo; reflexivity. Qed.

Lemma compare_cont_refl (m : positive) : Pos.compare_cont Eq m m = Eq.
Proof. exact (Pos.compare_refl m). Qed.

(** Case analysis on the comparisons of exponents and mantissas that a
    comparison of two finite numbers unfolds to. *)
Ltac order_cases :=
  repeat (first
    [ rewrite Z.compare_refl
    | rewrite compare_cont_refl
    | match goal with
      | |- context [Z.compare ?a ?b] => destruct (Z.compare a b) eqn:?
      | |- context [PosDef.Pos.compare_cont Eq ?a ?b] =>
          destruct (PosDef.Pos.compare_cont Eq a b) eqn:?
      end ]; cbn ).

(** Any other value is bounded by [clamp], infinities included. *)
Lemma clamp_bounds (x lo hi : number) :
  isNaN x = false -> (lo <=? hi)%num = true ->
  (lo <=? clamp x lo hi)%num = true /\ (clamp x lo hi <=? hi)%num = true.
Proof.
  unfold clamp, Math_max, Math_min, le, SFleb.
  destruct x as [sx|sx| |sx mx ex]; [| | discriminate |];
  destruct hi as [sh|sh| |sh mh eh];
  destruct lo as [sl|sl| |sl ml el];
  intros _; cbn; try discriminate;
  repeat match goal with b : bool |- _ => destruct b end; cbn;
  try discriminate; try (intros _; split; reflexivity);
  order_cases; try discriminate; try (intros _; split; reflexivity).
Qed.

(** *** Integers as numbers *)

Lemma shr_exponent (mrs : shr_record) (e n : Z) : e <= snd (shr mrs e n).
Proof. unfold shr. destruct n; cbn; lia. Qed.

(** Rounding keeps the sign and does not lower the exponent. *)
Lemma binary_round_aux_shape (s : bool) (mx ex : Z) (lx : location) :
  match binary_round_aux prec emax s mx ex lx with
  | S754_zero s' | S754_infinity s' => s' = s
  | S754_nan => True
  | S754_finite s' _ e => s' = s /\ ex <= e
  end.
Proof.
  unfold binary_round_aux, shr_fexp.
  match goal with |- context [shr ?r ?e ?n] =>
    pose proof (shr_exponent r e n) as H1; destruct (shr r e n) as [mrs' e'] end.
  match goal with |- context [shr ?r ?e ?n] =>
    pose proof (shr_exponent r e n) as H2; destruct (shr r e n) as [mrs'' e''] end.
  cbn in H1, H2.
  destruct (shr_m mrs''); try exact I; try reflexivity.
  destruct (e'' <=? emax - prec); [split; [reflexivity|lia]|reflexivity].
Qed.

Lemma digits2_pos_size (p : positive) : digits2_pos p = Pos.size p.
Proof. induction p; cbn; congruence. Qed.

Lemma shl_align_exponent (mx : positive) (ex ex' : Z) :
  Z.min ex ex' <= snd (shl_align mx ex ex').
Proof.
  unfold shl_align.
  change (IntDef.Z.sub ex' ex) with (ex' - ex).
  destruct (ex' - ex) eqn:D; cbn; lia.
Qed.

Lemma fexp_lower (k : Z) : k - 53 <= fexp prec emax k.
Proof.
  unfold fexp, emin, prec, emax.
  change (IntDef.Z.max (IntDef.Z.sub k 53) (IntDef.Z.sub (IntDef.Z.sub 3 1024) 53))
    with (Z.max (k - 53) (3 - 1024 - 53)).
  lia.
Qed.

Lemma size_of_large (p : positive) : 256 <= Zpos p -> 9 <= Zpos (Pos.size p).
Proof.
  intros Hp. pose proof (Pos.size_gt p) as G.
  destruct (Z_lt_le_dec (Zpos (Pos.size p)) 9) as [L|L]; [|exact L].
  exfalso.
  assert (2 ^ Zpos (Pos.size p) <= 2 ^ 8) by (apply Z.pow_le_mono_r; lia).
  assert (Zpos (2 ^ Pos.size p) = 2 ^ Zpos (Pos.size p)) by (apply Pos2Z.inj_pow).
  change (2 ^ 8) with 256 in *. lia.
Qed.

Lemma ofZ_shape (n : Z) :
  n <> 0 ->
  match ofZ n with
  | S754_zero s | S754_infinity s => s = (n <? 0)
  | S754_nan => True
  | S754_finite s _ e => s = (n <? 0) /\ (256 <= n -> -44 <= e)
  end.
Proof.
  intros Hn. unfold ofZ, binary_normalize.
  destruct n as [|p|p]; [congruence| |].
  - unfold binary_round.
    pose proof (shl_align_exponent p 0 (fexp prec emax (Zpos (digits2_pos p) + 0))) as A.
    pose proof (fexp_lower (Zpos (digits2_pos p) + 0)) as F.
    destruct (shl_align p 0 (fexp prec emax (Zpos (digits2_pos p) + 0))) as [mz ez].
    cbn [snd] in A.
    pose proof (binary_round_aux_shape false (Zpos mz) ez loc_Exact) as S.
    destruct (binary_round_aux prec emax false (Zpos mz) ez loc_Exact); cbn; auto.
    destruct S as [-> S]. split; [reflexivity|]. intros Hp.
    apply size_of_large in Hp. rewrite <- digits2_pos_size in Hp. lia.
  - unfold binary_round.
    destruct (shl_align p 0 (fexp prec emax (Zpos (digits2_pos p) + 0))) as [mz ez].
    pose proof (binary_round_aux_shape true (Zpos mz) ez loc_Exact) as S.
    destruct (binary_round_aux prec emax true (Zpos mz) ez loc_Exact); cbn; auto.
    destruct S as [-> S]. split; [reflexivity|]. intros Hp. lia.
Qed.

Lemma byteKept_all : forallb byteKept (seq 0 255) = true.
Proof. evaluate. Qed.

Lemma lit_0 : lit "0" = S754_zero false.
Proof. evaluate. Qed.

Lemma lit_255 : lit "255" = S754_finite false 8972014882652160 (-45).
Proof. evaluate. Qed.

Section WithRuntime.
Context {RT : JSRuntime}.

Lemma clamp_small_integer (n : Z) :
  1 <= n <= 255 -> clamp (ofZ n) (lit "0") (lit "255") = ofZ n.
Proof.
  intros Hn. pose proof byteKept_all as A. rewrite forallb_forall in A.
  specialize (A (Z.to_nat (n - 1))).
  assert (I : In (Z.to_nat (n - 1)) (seq 0 255)) by (apply in_seq; lia).
  specialize (A I). unfold byteKept in A.
  replace (Z.of_nat (S (Z.to_nat (n - 1)))) with n in A by lia.
  apply number_eqb_eq in A. exact A.
Qed.

(** The clamp of a rounded value is NaN or the number of an integer
    from 0 to 255. *)
Lemma clamp_round_byte (y : number) :
  channelByte (clamp (Math_round y) (lit "0") (lit "255")).
Proof.
  assert (Z0' : channelByte (S754_zero false)).
  { right. exists 0. split; [lia|reflexivity]. }
  assert (Z255 : channelByte (S754_finite false 8972014882652160 (-45))).
  { right. exists 255. split; [lia|evaluate]. }
  unfold clamp, Math_max, Math_min. rewrite lit_0, lit_255.
  destruct y as [s|s| |s m e].
  - destruct s; exact Z0'.
  - destruct s; [exact Z0'|exact Z255].
  - left. reflexivity.
  - unfold Math_round.
    destruct (0 <=? e) eqn:E.
    + apply Z.leb_le in E. destruct s.
      * exact Z0'.
      * cbn [SFcompare].
        assert (C : (e ?= -45) = Gt) by (apply Z.compare_gt_iff; lia).
        rewrite C. exact Z255.
    + set (n := (2 * cond_Zopp s (Zpos m) + 2 ^ (- e)) / (2 * 2 ^ (- e))).
      destruct (Z.eqb_spec n 0) as [_|Hn].
      { destruct s; exact Z0'. }
      destruct (Z_lt_le_dec n 0) as [Hneg|Hpos].
      * pose proof (ofZ_shape n Hn) as S.
        assert (L : (n <? 0) = true) by (apply Z.ltb_lt; exact Hneg).
        rewrite L in S.
        destruct (ofZ n) as [s'|s'| |s' m' e']; [subst s'|subst s'|left; reflexivity|].
        -- exact Z0'.
        -- exact Z0'.
        -- destruct S as [-> _]. exact Z0'.
      * destruct (Z_le_gt_dec n 255) as [Hs|Hl].
        -- pose proof (clamp_small_integer n) as K.
           unfold clamp, Math_max, Math_min in K. rewrite lit_0, lit_255 in K.
           rewrite K by lia. right. exists n. split; [lia|reflexivity].
        -- pose proof (ofZ_shape n Hn) as S.
           assert (L : (n <? 0) = false) by (apply Z.ltb_ge; lia).
           rewrite L in S.
           destruct (ofZ n) as [s'|s'| |s' m' e']; [subst s'|subst s'|left; reflexivity|].
           ++ exact Z0'.
           ++ exact Z255.
           ++ destruct S as [-> S]. assert (He : -44 <= e') by (apply S; lia).
              cbn [SFcompare].
              assert (C : (e' ?= -45) = Gt) by (apply Z.compare_gt_iff; lia).
              rewrite C. exact Z255.
Qed.

(** Whatever the arguments and the runtime, each channel returned by
    [oklchToRgb] is NaN or the number of an integer from 0 to 255. *)
Lemma oklchToRgb_channels (l c h : jsval) :
  let '(r, g, b) := oklchToRgb l c h in
  channelByte r /\ channelByte g /\ channelByte b.
Proof.
  unfold oklchToRgb. cbv zeta. repeat split; apply clamp_round_byte.
Qed.

End WithRuntime.

(** C5.  The input [oklch(1e200 0 0)] is parsed to three finite values;
    on them the cubes of the cone responses overflow to Infinity, the
    linear channels are Infinity - Infinity = NaN, and NaN passes both
    clamps: [oklchToRgb] returns three NaN, on every runtime, and the
    orchestrator writes them out. *)
Theorem oklchToRgb_overflow :
  parseColor "oklch(1e200 0 0)" = ParseResult.mk "oklch" [lit "1e200"; posZero; posZero] /\
  isFinite (lit "1e200") = true /\
  forall RT : JSRuntime,
    @oklchToRgb RT (Some (lit "1e200")) (Some posZero) (Some posZero) = (NaN, NaN, NaN) /\
    @convertColor RT "oklch" [lit "1e200"; posZero; posZero] =
      [ Conversion.mk "rgb" "rgb(NaN, NaN, NaN)";
        Conversion.mk "hex" "#NaNNaNNaN" ].
Proof.
  split; [evaluate|]. split; [reflexivity|].
  intros RT. split; evaluate.
Qed.

(** In [rgbToOklch] a negative hue has 360 added to it.  In binary64
    the sum is not below 360 for every negative hue: the numbers next to
    360 are 2^-44 apart, and a hue closer to 0 than half of that is
    absorbed. *)
Lemma hue_wrap_absorbed :
  (lit "-1e-14" <? lit "0")%num = true /\
  (lit "-1e-14" + lit "360")%num = lit "360".
Proof. split; evaluate. Qed.

(** The three cube roots that the next theorem assumes are the nearest
    numbers to the exact roots, which lie within a quarter of a unit in
    the last place: a [Math.cbrt] whose error is below three quarters of
    a unit returns them. *)
Lemma hue_cube_roots_nearest :
  cubeRootWithin 4 (lit "0.0007736422546016371") (lit "0.0918008552582732") = true /\
  cubeRootWithin 4 (lit "0.00043387761983389547") (lit "0.07570462566462259") = true /\
  cubeRootWithin 4 (lit "0.0004428032881468424") (lit "0.0762202342309693") = true.
Proof. repeat split; evaluate. Qed.

(** C6.  The input [rgb(6, 0, 1.473993174149527)] is parsed to three
    values that the [rgb] branch leaves as they are.  On a runtime whose
    [Math.cbrt] returns the nearest numbers at the three cone responses
    of this colour, and whose [Math.atan2] returns the quotient of its
    (tiny) first argument by its second, [lab_b] is -2^-56, the hue in
    degrees is about -2.5e-14, and adding 360 gives exactly 360: the hue
    returned by [rgbToOklch] is 360. *)
Theorem rgbToOklch_hue_reaches_360 (RT : JSRuntime) :
  cbrt_approx (lit "0.0007736422546016371") = lit "0.0918008552582732" ->
  cbrt_approx (lit "0.00043387761983389547") = lit "0.07570462566462259" ->
  cbrt_approx (lit "0.0004428032881468424") = lit "0.0762202342309693" ->
  atan2_approx (lit "-1.3877787807814457e-17") (lit "0.03207064788979135") =
    (lit "-1.3877787807814457e-17" / lit "0.03207064788979135")%num ->
  parseColor "rgb(6, 0, 1.473993174149527)" =
    ParseResult.mk "rgb" [lit "6"; lit "0"; lit "1.473993174149527"] /\
  clamp (lit "6") (lit "0") (lit "255") = lit "6" /\
  clamp (lit "0") (lit "0") (lit "255") = lit "0" /\
  clamp (lit "1.473993174149527") (lit "0") (lit "255") = lit "1.473993174149527" /\
  snd (rgbToOklch (Some (lit "6")) (Some (lit "0")) (Some (lit "1.473993174149527")))
    = lit "360".
Proof.
  intros Hl Hm Hs Ha.
  split; [evaluate|].
  split; [evaluate|].
  split; [evaluate|].
  split; [evaluate|].
  unfold rgbToOklch. cbv zeta. cbn [snd toNumber].
  set (rl := sRGBtoLinear (lit "6" / lit "255")%num).
  set (gl := sRGBtoLinear (lit "0" / lit "255")%num).
  set (bl := sRGBtoLinear (lit "1.473993174149527" / lit "255")%num).
  assert (El : (lit "0.4121656120" * rl + lit "0.5362752080" * gl
                + lit "0.0514575653" * bl)%num
               = lit "0.0007736422546016371") by evaluate.
  assert (Em : (lit "0.2118561070" * rl + lit "0.6807189584" * gl
                + lit "0.1074065790" * bl)%num
               = lit "0.00043387761983389547") by evaluate.
  assert (Es : (lit "0.0883097947" * rl + lit "0.2818474174" * gl
                + lit "0.6302613616" * bl)%num
               = lit "0.0004428032881468424") by evaluate.
  rewrite El, Em, Es.
  assert (Cl : Math_cbrt (lit "0.0007736422546016371") = lit "0.0918008552582732")
    by exact Hl.
  assert (Cm : Math_cbrt (lit "0.00043387761983389547") = lit "0.07570462566462259")
    by exact Hm.
  assert (Cs : Math_cbrt (lit "0.0004428032881468424") = lit "0.0762202342309693")
    by exact Hs.
  rewrite Cl, Cm, Cs.
  assert (Eb : (lit "0.0259040371" * lit "0.0918008552582732"
                + lit "0.7827717662" * lit "0.07570462566462259"
                - lit "0.8086757660" * lit "0.0762202342309693")%num
               = lit "-1.3877787807814457e-17") by evaluate.
  assert (Ea : (lit "1.9779984951" * lit "0.0918008552582732"
                - lit "2.4285922050" * lit "0.07570462566462259"
                + lit "0.4505937099" * lit "0.0762202342309693")%num
               = lit "0.03207064788979135") by evaluate.
  rewrite Eb, Ea.
  assert (At : Math_atan2 (lit "-1.3877787807814457e-17") (lit "0.03207064788979135")
               = (lit "-1.3877787807814457e-17" / lit "0.03207064788979135")%num)
    by exact Ha.
  rewrite At.
  evaluate.
Qed.

Lemma rgbToOklch_hue_reaches_360_witness :
  @cbrt_approx pointRuntime (lit "0.0007736422546016371") = lit "0.0918008552582732" /\
  @cbrt_approx pointRuntime (lit "0.00043387761983389547") = lit "0.07570462566462259" /\
  @cbrt_approx pointRuntime (lit "0.0004428032881468424") = lit "0.0762202342309693" /\
  @atan2_approx pointRuntime (lit "-1.3877787807814457e-17") (lit "0.03207064788979135") =
    (lit "-1.3877787807814457e-17" / lit "0.03207064788979135")%num /\
  snd (@rgbToOklch pointRuntime (Some (lit "6")) (Some (lit "0"))
         (Some (lit "1.473993174149527")))
    = lit "360".
Proof.
  split; [evaluate|]. split; [evaluate|]. split; [evaluate|]. split; [evaluate|].
  apply (rgbToOklch_hue_reaches_360 pointRuntime); evaluate.
Defined.

(** On that runtime the orchestrator writes the hue out as [360.00]. *)
Lemma convertColor_writes_hue_360 :
  @convertColor pointRuntime "rgb" [lit "6"; lit "0"; lit "1.473993174149527"] =
    [ Conversion.mk "oklch" "oklch(0.0791 0.0321 360.00)";
      Conversion.mk "hex" "#060001" ].
Proof. evaluate. Qed.

(** *** The round trip of hexadecimal input *)

Section WithRuntime.
Context {RT : JSRuntime}.

Lemma byteOk_listed :
  forallb (fun a => forallb (byteOk a) hexDigits) hexDigits = true.
Proof. evaluate. Qed.

Lemma byteOk_all (c1 c2 : ascii) :
  isHexDigit c1 = true -> isHexDigit c2 = true -> byteOk c1 c2 = true.
Proof.
  intros H1 H2.
  apply isHexDigit_listed in H1 as [H1 _]. apply isHexDigit_listed in H2 as [H2 _].
  pose proof byteOk_listed as A.
  rewrite forallb_forall in A. specialize (A c1 H1).
  rewrite forallb_forall in A. exact (A c2 H2).
Qed.

(** The facts checked for every pair of hexadecimal digits. *)
Lemma hex_pair (c1 c2 : ascii) :
  isHexDigit c1 = true -> isHexDigit c2 = true ->
  let v := parseInt (String (lowerChar c1) (String (lowerChar c2) "")) 16 in
  rgbChannel v /\
  hexByte (Math_round (clamp v (lit "0") (lit "255"))) =
    String (lowerChar c1) (String (lowerChar c2) "").
Proof.
  intros H1 H2 v.
  pose proof (byteOk_all c1 c2 H1 H2) as A. unfold byteOk in A. fold v in A.
  cbv zeta in A.
  repeat (apply andb_prop in A as [A ?]).
  unfold rgbChannel.
  repeat match goal with
         | H : number_eqb _ _ = true |- _ => apply number_eqb_eq in H
         | H : String.eqb _ _ = true |- _ => apply String.eqb_eq in H
         end.
  repeat split; assumption.
Qed.

Lemma rgbText_payload (r g b : number) :
  rgbText r g b =
  "rgb(" ++ (toString r 10 ++ ", " ++ toString g 10 ++ ", " ++ toString b 10) ++ ")".
Proof. unfold rgbText. now rewrite !append_assoc. Qed.

(** The [rgb(...)] text written for three good channel values is parsed
    back to these values. *)
Lemma parseColor_rgbText (r g b : number) :
  rgbChannel r -> rgbChannel g -> rgbChannel b ->
  parseColor (rgbText r g b) = ParseResult.mk "rgb" [r; g; b].
Proof.
  intros (Nr & Cr & Lr & Pr & _) (Ng & Cg & Lg & _ & Pg) (Nb & Cb & Lb & _ & Pb).
  rewrite rgbText_payload.
  set (payload := toString r 10 ++ ", " ++ toString g 10 ++ ", " ++ toString b 10).
  assert (Htrim : trim ("rgb(" ++ payload ++ ")") = "rgb(" ++ payload ++ ")").
  { unfold trim. rewrite <- (append_assoc "rgb(" payload ")").
    rewrite trimEnd_append_last by reflexivity. reflexivity. }
  assert (Hlow : toLowerCase ("rgb(" ++ payload ++ ")") = "rgb(" ++ payload ++ ")").
  { unfold payload. rewrite !toLowerCase_append. rewrite Lr, Lg, Lb. reflexivity. }
  unfold parseColor. rewrite Htrim, Hlow.
  change (startsWith "oklch(" ("rgb(" ++ payload ++ ")")) with false.
  change (startsWith "rgb" ("rgb(" ++ payload ++ ")")) with true.
  cbn [orElse].
  unfold parseRgb, rgbTokens.
  change (indexOf "(" ("rgb(" ++ payload ++ ")") + 1) with (len "rgb(").
  rewrite substring_middle.
  unfold payload. rewrite split_rgb_payload by assumption.
  cbn [map List.length Nat.eqb orb andb forallb].
  rewrite Pr, Pg, Pb, Nr, Ng, Nb. reflexivity.
Qed.

(** The [hex] entry written by the [rgb] branch. *)
Lemma convertColor_rgb_hex (r g b : number) :
  notNaN r = true -> notNaN g = true -> notNaN b = true ->
  exists o,
    convertColor "rgb" [r; g; b] =
      [o; Conversion.mk "hex"
            ("#" ++ hexByte (Math_round (clamp r (lit "0") (lit "255")))
                 ++ hexByte (Math_round (clamp g (lit "0") (lit "255")))
                 ++ hexByte (Math_round (clamp b (lit "0") (lit "255"))))].
Proof.
  intros Nr Ng Nb. unfold convertColor.
  cbn [List.length Nat.eqb orb existsb].
  unfold notNaN in Nr, Ng, Nb.
  destruct (isNaN r); [discriminate|]. destruct (isNaN g); [discriminate|].
  destruct (isNaN b); [discriminate|].
  cbn [orb]. change (String.eqb "rgb" "oklch") with false.
  change (String.eqb "rgb" "rgb") with true. cbn [orb].
  eexists. reflexivity.
Qed.

(** The [rgb] entry written by the [hex] branch. *)
Lemma convertColor_hex_rgb (r g b : number) :
  notNaN r = true -> notNaN g = true -> notNaN b = true ->
  exists o, convertColor "hex" [r; g; b] = [o; Conversion.mk "rgb" (rgbText r g b)].
Proof.
  intros Nr Ng Nb. unfold convertColor.
  cbn [List.length Nat.eqb orb existsb].
  unfold notNaN in Nr, Ng, Nb.
  destruct (isNaN r); [discriminate|]. destruct (isNaN g); [discriminate|].
  destruct (isNaN b); [discriminate|].
  cbn [orb]. change (String.eqb "hex" "oklch") with false.
  change (String.eqb "hex" "rgb" || String.eqb "hex" "rgba") with false.
  change (String.eqb "hex" "hex") with true.
  eexists. reflexivity.
Qed.

(** C7.  For [#] followed by 6 hexadecimal digits of either case, the
    parser answers [hex] with the three bytes; the [hex] entry that the
    [rgb] branch writes for these bytes is [#] and the 6 digits in lower
    case; and the [rgb] entry that the [hex] branch writes is parsed back
    to the same bytes and converted to that same [hex] entry. *)
Theorem hex_round_trip (body : string) :
  String.length body = 6%nat ->
  allChars isHexDigit body = true ->
  let p := parseColor ("#" ++ body) in
  let hexOut := Conversion.mk "hex" ("#" ++ toLowerCase body) in
  ParseResult.format p = "hex" /\
  (exists o, convertColor "rgb" (ParseResult.values p) = [o; hexOut]) /\
  (exists o text,
     convertColor (ParseResult.format p) (ParseResult.values p) =
       [o; Conversion.mk "rgb" text] /\
     parseColor text = ParseResult.mk "rgb" (ParseResult.values p) /\
     exists o',
       convertColor (ParseResult.format (parseColor text))
                    (ParseResult.values (parseColor text)) = [o'; hexOut]).
Proof.
  intros Hlen Hall.
  destruct body as [|c1 [|c2 [|c3 [|c4 [|c5 [|c6 [|c7 rest]]]]]]]; try discriminate.
  cbn [allChars] in Hall.
  repeat (apply andb_prop in Hall as [? Hall]).
  match goal with
  | H1 : isHexDigit c1 = true, H2 : isHexDigit c2 = true, H3 : isHexDigit c3 = true,
    H4 : isHexDigit c4 = true, H5 : isHexDigit c5 = true, H6 : isHexDigit c6 = true |- _ =>
      destruct (hex_pair c1 c2 H1 H2) as [Rr Hr];
      destruct (hex_pair c3 c4 H3 H4) as [Rg Hg];
      destruct (hex_pair c5 c6 H5 H6) as [Rb Hb];
      pose proof (proj2 (isHexDigit_listed c6 H6)) as W6
  end.
  set (r := parseInt (String (lowerChar c1) (String (lowerChar c2) "")) 16) in *.
  set (g := parseInt (String (lowerChar c3) (String (lowerChar c4) "")) 16) in *.
  set (b := parseInt (String (lowerChar c5) (String (lowerChar c6) "")) 16) in *.
  set (digits6 := String c1 (String c2 (String c3 (String c4 (String c5 (String c6 "")))))).
  assert (Hp : parseColor ("#" ++ digits6) = ParseResult.mk "hex" [r; g; b]).
  { unfold parseColor.
    assert (T : trim ("#" ++ digits6) = "#" ++ digits6).
    { unfold trim.
      change ("#" ++ digits6)
        with (String "#" (String c1 (String c2 (String c3 (String c4 (String c5 "")))))
              ++ String c6 "").
      rewrite trimEnd_append_last by exact W6. reflexivity. }
    rewrite T.
    change (orElse (parseHex (String "#" (toLowerCase digits6))) unknown
            = ParseResult.mk "hex" [r; g; b]).
    unfold parseHex.
    change (orElse
      (if notNaN r && notNaN g && notNaN b
       then Some (ParseResult.mk "hex" [r; g; b]) else None)
      unknown = ParseResult.mk "hex" [r; g; b]).
    destruct Rr as [-> _], Rg as [-> _], Rb as [-> _]. reflexivity. }
  cbv zeta. rewrite Hp. cbn [ParseResult.format ParseResult.values].
  pose proof Rr as [Nr _]. pose proof Rg as [Ng _]. pose proof Rb as [Nb _].
  assert (Hhex : exists o, convertColor "rgb" [r; g; b] =
            [o; Conversion.mk "hex" ("#" ++ toLowerCase digits6)]).
  { destruct (convertColor_rgb_hex r g b Nr Ng Nb) as [o ->].
    exists o. rewrite Hr, Hg, Hb. reflexivity. }
  split; [reflexivity|]. split; [exact Hhex|].
  destruct (convertColor_hex_rgb r g b Nr Ng Nb) as [o Ho].
  exists o, (rgbText r g b). split; [exact Ho|].
  rewrite (parseColor_rgbText r g b Rr Rg Rb).
  split; [reflexivity|exact Hhex].
Qed.

End WithRuntime.

Lemma hex_round_trip_witness :
  String.length "FF7f50" = 6%nat /\
  allChars isHexDigit "FF7f50" = true /\
  forall RT : JSRuntime,
    exists o,
      @convertColor RT "rgb" (ParseResult.values (parseColor "#FF7f50")) =
        [o; Conversion.mk "hex" "#ff7f50"].
Proof.
  split; [reflexivity|]. split; [reflexivity|]. intros RT.
  exact (proj1 (proj2 (@hex_round_trip RT "FF7f50" eq_refl eq_refl))).
Defined.

End Properties.

(** ** Further properties: the helpers, the parser, the conversion and
    the page *)

Module Behaviour.
Import JSString JSNumber JSMath ColorConverter Props Checks Page Properties.

(** *** The helpers on every number *)

Lemma Math_max_choice (a b : number) :
  Math_max a b = a \/ Math_max a b = b \/ Math_max a b = NaN.
Proof.
  unfold Math_max. destruct (SFcompare a b) as [[| |]|]; auto.
  destruct a as [sa|sa| |sa ma ea]; auto.
  destruct b as [sb|sb| |sb mb eb]; auto.
  destruct sa, sb; auto.
Qed.

Lemma Math_min_choice (a b : number) :
  Math_min a b = a \/ Math_min a b = b \/ Math_min a b = NaN.
Proof.
  unfold Math_min. destruct (SFcompare a b) as [[| |]|]; auto.
  destruct a as [sa|sa| |sa ma ea]; auto.
  destruct b as [sb|sb| |sb mb eb]; auto.
  destruct sa, sb; auto.
Qed.

Lemma le_not_NaN (a b : number) :
  (a <=? b)%num = true -> isNaN a = false /\ isNaN b = false.
Proof.
  unfold le, SFleb. destruct a, b; cbn; try discriminate; auto.
Qed.

Lemma clamp_choice (x lo hi : number) :
  isNaN x = false -> (lo <=? hi)%num = true ->
  clamp x lo hi = x \/ clamp x lo hi = lo \/ clamp x lo hi = hi.
Proof.
  intros Hx Hb. destruct (clamp_bounds x lo hi Hx Hb) as [B _].
  apply le_not_NaN in B. destruct B as [_ B]. revert B. unfold clamp.
  destruct (Math_max_choice lo (Math_min x hi)) as [E|[E|E]]; rewrite E.
  - auto.
  - destruct (Math_min_choice x hi) as [F|[F|F]]; rewrite F; auto. discriminate.
  - discriminate.
Qed.

(** X1.  [clamp] bounds every value other than NaN, the infinities
    included, and invents nothing: for [lo <= hi] its result lies between
    [lo] and [hi] and is the value itself or one of the two bounds. *)
Theorem clamp_within_bounds (x lo hi : number) :
  isNaN x = false -> (lo <=? hi)%num = true ->
  (lo <=? clamp x lo hi)%num = true /\
  (clamp x lo hi <=? hi)%num = true /\
  (clamp x lo hi = x \/ clamp x lo hi = lo \/ clamp x lo hi = hi).
Proof.
  intros Hx Hb. destruct (clamp_bounds x lo hi Hx Hb) as [A B].
  repeat split; try assumption. apply clamp_choice; assumption.
Qed.

Lemma clamp_within_bounds_witness :
  isNaN (lit "300") = false /\
  (lit "0" <=? lit "255")%num = true /\
  (lit "0" <=? clamp (lit "300") (lit "0") (lit "255"))%num = true /\
  (clamp (lit "300") (lit "0") (lit "255") <=? lit "255")%num = true /\
  clamp (lit "300") (lit "0") (lit "255") = lit "255".
Proof.
  assert (Hx : isNaN (lit "300") = false) by (vm_compute; reflexivity).
  assert (Hb : (lit "0" <=? lit "255")%num = true) by (vm_compute; reflexivity).
  destruct (clamp_within_bounds (lit "300") (lit "0") (lit "255") Hx Hb) as [A [B _]].
  repeat split; try assumption.
Defined.


(** *** The transfer functions outside the unit interval *)

Lemma lit_1 : lit "1" = S754_finite false 4503599627370496 (-52).
Proof. evaluate. Qed.

Lemma clamp_unit_low (x : number) :
  (x <=? lit "0")%num = true -> clamp x (lit "0") (lit "1") = posZero.
Proof.
  rewrite lit_0, lit_1. unfold clamp, Math_max, Math_min, le, SFleb.
  destruct x as [s|s| |s m e]; try destruct s; cbn [SFcompare andb];
  try discriminate; reflexivity.
Qed.

Lemma clamp_unit_high (x : number) :
  (lit "1" <=? x)%num = true -> clamp x (lit "0") (lit "1") = lit "1".
Proof.
  rewrite lit_0, lit_1. unfold clamp, Math_max, Math_min, le, SFleb.
  destruct x as [s|s| |s m e]; try destruct s; cbn [SFcompare orb];
  try discriminate; try reflexivity.
  rewrite (Z.compare_antisym e (-52)).
  destruct (Z.compare_spec e (-52)) as [E|E|E]; cbn [CompOpp];
  try discriminate; try reflexivity.
  assert (A : Pos.compare_cont Eq 4503599627370496 m =
              CompOpp (Pos.compare_cont Eq m 4503599627370496))
    by (symmetry; apply (Pos.compare_cont_antisym m 4503599627370496 Eq)).
  rewrite A.
  destruct (Pos.compare_cont Eq m 4503599627370496) eqn:C; cbn [CompOpp];
  try discriminate; try reflexivity.
  intros _. apply Pos.compare_eq in C. subst. reflexivity.
Qed.

Section WithRuntime.
Context {RT : JSRuntime}.

(** X2.  Outside the unit interval the two transfer functions are
    constant: an argument that is zero or below, [-Infinity] included,
    gives [+0], and an argument of one or above, [Infinity] included,
    gives what the argument 1 gives. *)
Theorem transfer_saturates (x y : number) :
  (x <=? lit "0")%num = true -> (lit "1" <=? y)%num = true ->
  sRGBtoLinear x = posZero /\ linearTosRGB x = posZero /\
  sRGBtoLinear y = sRGBtoLinear (lit "1") /\
  linearTosRGB y = linearTosRGB (lit "1").
Proof.
  intros Hx Hy.
  assert (E1 : clamp (lit "1") (lit "0") (lit "1") = lit "1") by evaluate.
  unfold sRGBtoLinear, linearTosRGB. cbv zeta.
  rewrite (clamp_unit_low x Hx), (clamp_unit_high y Hy), E1.
  repeat split; evaluate.
Qed.

End WithRuntime.

Lemma transfer_saturates_witness :
  (lit "-3" <=? lit "0")%num = true /\
  (lit "1" <=? Infinity)%num = true /\
  forall RT : JSRuntime,
    @sRGBtoLinear RT (lit "-3") = posZero /\
    @linearTosRGB RT (lit "-3") = posZero /\
    @sRGBtoLinear RT Infinity = @sRGBtoLinear RT (lit "1") /\
    @linearTosRGB RT Infinity = @linearTosRGB RT (lit "1").
Proof.
  split; [evaluate|]. split; [evaluate|]. intros RT.
  apply (@transfer_saturates RT (lit "-3") Infinity); evaluate.
Defined.

(** *** NaN and missing arguments *)

Lemma add_NaN_l (x : number) : (NaN + x)%num = NaN.
Proof. reflexivity. Qed.

Lemma add_NaN_r (x : number) : (x + NaN)%num = NaN.
Proof. destruct x; reflexivity. Qed.

Lemma sub_NaN_l (x : number) : (NaN - x)%num = NaN.
Proof. destruct x; reflexivity. Qed.

Lemma sub_NaN_r (x : number) : (x - NaN)%num = NaN.
Proof. destruct x; reflexivity. Qed.

Lemma mul_NaN_l (x : number) : (NaN * x)%num = NaN.
Proof. reflexivity. Qed.

Lemma mul_NaN_r (x : number) : (x * NaN)%num = NaN.
Proof. destruct x; reflexivity. Qed.

Lemma div_NaN_l (x : number) : (NaN / x)%num = NaN.
Proof. reflexivity. Qed.

Create Rewrite HintDb nan.
#[local] Hint Rewrite add_NaN_l add_NaN_r sub_NaN_l sub_NaN_r
  mul_NaN_l mul_NaN_r div_NaN_l clamp_NaN : nan.

Section WithRuntime.
Context {RT : JSRuntime}.

Lemma linearTosRGB_NaN : linearTosRGB NaN = NaN.
Proof. evaluate. Qed.

Lemma sRGBtoLinear_NaN : sRGBtoLinear NaN = NaN.
Proof. evaluate. Qed.

Lemma oklchToRgb_NaN_lightness (c h : jsval) :
  oklchToRgb (Some NaN) c h = (NaN, NaN, NaN).
Proof.
  unfold oklchToRgb. cbv zeta. cbn [toNumber].
  autorewrite with nan. rewrite ?linearTosRGB_NaN. reflexivity.
Qed.

Lemma oklchToRgb_NaN_chroma (l h : jsval) :
  oklchToRgb l (Some NaN) h = (NaN, NaN, NaN).
Proof.
  unfold oklchToRgb. cbv zeta. cbn [toNumber].
  autorewrite with nan. rewrite ?linearTosRGB_NaN. reflexivity.
Qed.

(** X3.  Whatever its arguments and the runtime, [oklchToRgb] returns in
    each channel NaN or the number of an integer from 0 to 255: never a
    fraction, a negative number, a number above 255 or an infinity. *)
Theorem oklchToRgb_bytes_or_NaN (l c h : jsval) :
  channelByte (fst (fst (oklchToRgb l c h))) /\
  channelByte (snd (fst (oklchToRgb l c h))) /\
  channelByte (snd (oklchToRgb l c h)).
Proof.
  pose proof (oklchToRgb_channels l c h) as H.
  destruct (oklchToRgb l c h) as [[r g] b]. exact H.
Qed.

(** X4.  A hue that is missing or NaN is read as 0; a lightness or a
    chroma that is missing or NaN makes all three channels NaN. *)
Theorem oklchToRgb_missing_arguments (l c h : jsval) :
  oklchToRgb l c None = oklchToRgb l c (Some (lit "0")) /\
  oklchToRgb l c (Some NaN) = oklchToRgb l c (Some (lit "0")) /\
  oklchToRgb None c h = (NaN, NaN, NaN) /\
  oklchToRgb (Some NaN) c h = (NaN, NaN, NaN) /\
  oklchToRgb l None h = (NaN, NaN, NaN) /\
  oklchToRgb l (Some NaN) h = (NaN, NaN, NaN).
Proof.
  split; [reflexivity|]. split; [reflexivity|].
  split; [apply (oklchToRgb_NaN_lightness c h)|].
  split; [apply oklchToRgb_NaN_lightness|].
  split; [apply (oklchToRgb_NaN_chroma l h)|apply oklchToRgb_NaN_chroma].
Qed.

(** X5.  The lightness returned by [rgbToOklch] is NaN or lies between
    0 and 1, whatever the channels and the runtime. *)
Theorem rgbToOklch_lightness (r g b : jsval) :
  let L := fst (fst (rgbToOklch r g b)) in
  isNaN L = true \/ ((lit "0" <=? L)%num = true /\ (L <=? lit "1")%num = true).
Proof.
  unfold rgbToOklch. cbv zeta. cbn [fst].
  match goal with |- context [clamp ?v _ _] => set (lab_l := v) end.
  destruct (isNaN lab_l) eqn:N.
  - left. destruct lab_l; try discriminate. reflexivity.
  - right. apply clamp_bounds; [exact N|evaluate].
Qed.

(** X6.  A channel that is missing or NaN makes every component of the
    result of [rgbToOklch] NaN. *)
Theorem rgbToOklch_missing_channel (r g b : jsval) :
  isNaN (toNumber r) || isNaN (toNumber g) || isNaN (toNumber b) = true ->
  rgbToOklch r g b = (NaN, NaN, NaN).
Proof.
  intros H. unfold rgbToOklch. cbv zeta.
  apply orb_true_iff in H. destruct H as [H|H];
  [apply orb_true_iff in H; destruct H as [H|H]|];
  match type of H with isNaN ?v = true =>
    destruct v; try discriminate end;
  rewrite div_NaN_l, sRGBtoLinear_NaN; autorewrite with nan; reflexivity.
Qed.

End WithRuntime.

Lemma rgbToOklch_missing_channel_witness :
  isNaN (toNumber (Some (lit "1"))) || isNaN (toNumber (Some (lit "2")))
    || isNaN (toNumber None) = true /\
  forall RT : JSRuntime,
    @rgbToOklch RT (Some (lit "1")) (Some (lit "2")) None = (NaN, NaN, NaN).
Proof.
  split; [reflexivity|]. intros RT.
  apply (@rgbToOklch_missing_channel RT); reflexivity.
Defined.

(** *** The parser: what it does not look at *)

Lemma lowerCharKeeps_all (c : ascii) : lowerCharKeeps c = true.
Proof. apply (forall_ascii lowerCharKeeps). evaluate. Qed.

Lemma lowerChar_space (c : ascii) : isWhiteSpace (lowerChar c) = isWhiteSpace c.
Proof.
  pose proof (lowerCharKeeps_all c) as H. unfold lowerCharKeeps in H.
  repeat (apply andb_prop in H as [H ?]). apply eqb_prop. exact H.
Qed.

Lemma lowerChar_notChar (d c : ascii) :
  d = "/"%char \/ d = "("%char \/ d = ","%char ->
  notChar d (lowerChar c) = notChar d c.
Proof.
  pose proof (lowerCharKeeps_all c) as H. unfold lowerCharKeeps in H.
  repeat (apply andb_prop in H as [H ?]).
  unfold notChar. intros [->|[->| ->]]; f_equal; apply eqb_prop; assumption.
Qed.

Lemma toLowerCase_notChar (d : ascii) (s : string) :
  d = "/"%char \/ d = "("%char \/ d = ","%char ->
  allChars (notChar d) (toLowerCase s) = allChars (notChar d) s.
Proof.
  intros Hd. induction s as [|c r IH]; [reflexivity|].
  cbn [toLowerCase allChars]. rewrite IH, lowerChar_notChar by exact Hd. reflexivity.
Qed.

Lemma toLowerCase_trimStart (s : string) :
  toLowerCase (trimStart s) = trimStart (toLowerCase s).
Proof.
  induction s as [|c r IH]; [reflexivity|].
  cbn [trimStart toLowerCase]. rewrite lowerChar_space.
  destruct (isWhiteSpace c); [exact IH|reflexivity].
Qed.

Lemma toLowerCase_trimEnd (s : string) :
  toLowerCase (trimEnd s) = trimEnd (toLowerCase s).
Proof.
  induction s as [|c r IH]; [reflexivity|].
  cbn [trimEnd toLowerCase]. rewrite <- IH, lowerChar_space.
  destruct (trimEnd r); cbn [toLowerCase]; [destruct (isWhiteSpace c)|]; reflexivity.
Qed.

Lemma toLowerCase_trim (s : string) : toLowerCase (trim s) = trim (toLowerCase s).
Proof. unfold trim. now rewrite toLowerCase_trimStart, toLowerCase_trimEnd. Qed.

Lemma trimEnd_space (s : string) : allChars isWhiteSpace s = true -> trimEnd s = "".
Proof.
  induction s as [|c r IH]; [reflexivity|]. cbn [allChars trimEnd].
  intros H. apply andb_prop in H as [Hc Hr]. rewrite (IH Hr), Hc. reflexivity.
Qed.

Lemma trimEnd_space_after (s post : string) :
  allChars isWhiteSpace post = true -> trimEnd (s ++ post) = trimEnd s.
Proof.
  intros H. induction s as [|c r IH]; [exact (trimEnd_space post H)|].
  cbn [append trimEnd]. rewrite IH. reflexivity.
Qed.

Lemma trim_space_before (pre s : string) :
  allChars isWhiteSpace pre = true -> trim (pre ++ s) = trim s.
Proof.
  unfold trim. induction pre as [|c r IH]; [reflexivity|].
  cbn [allChars append trimEnd]. intros H. apply andb_prop in H as [Hc Hr].
  rewrite <- (IH Hr).
  destruct (trimEnd (r ++ s)); cbn [trimStart]; rewrite Hc; reflexivity.
Qed.

Lemma trim_padded (pre s post : string) :
  allChars isWhiteSpace pre = true -> allChars isWhiteSpace post = true ->
  trim (pre ++ s ++ post) = trim s.
Proof.
  intros Hpre Hpost. rewrite (trim_space_before pre _ Hpre).
  unfold trim. now rewrite trimEnd_space_after.
Qed.

(** The parser reads its input only through the lower-cased, trimmed
    text. *)
Lemma parseColor_cleaned (s s' : string) :
  toLowerCase (trim s) = toLowerCase (trim s') -> parseColor s = parseColor s'.
Proof. unfold parseColor. intros ->. reflexivity. Qed.

(** X7.  The result of the parser never holds NaN, and its number of
    values is fixed by its tag: none for [unknown], four for [rgba],
    three for the other tags. *)
Theorem parseColor_well_formed (input : string) :
  let p := parseColor input in
  forallb notNaN (ParseResult.values p) = true /\
  List.length (ParseResult.values p) =
    if String.eqb (ParseResult.format p) "unknown" then 0%nat
    else if String.eqb (ParseResult.format p) "rgba" then 4%nat else 3%nat.
Proof.
  cbv zeta.
  destruct (parseColor_cases input) as [-> | [N [[-> ->]|[[-> ->]|[[-> ->]|[-> ->]]]]]];
  split; try exact N; reflexivity.
Qed.

(** X8.  White space around the input and the case of its letters do
    not matter: two inputs that differ only in these are parsed to the
    same result. *)
Theorem parseColor_ignores_space_and_case (pre post s s' : string) :
  allChars isWhiteSpace pre = true -> allChars isWhiteSpace post = true ->
  toLowerCase s = toLowerCase s' ->
  parseColor (pre ++ s ++ post) = parseColor s'.
Proof.
  intros Hpre Hpost E. apply parseColor_cleaned.
  rewrite (trim_padded pre s post Hpre Hpost).
  rewrite !toLowerCase_trim. now rewrite E.
Qed.

Lemma parseColor_ignores_space_and_case_witness :
  allChars isWhiteSpace "  " = true /\
  allChars isWhiteSpace (String (ascii_of_nat 9) (String (ascii_of_nat 10) "")) = true /\
  toLowerCase "RGB(255, 127, 80)" = toLowerCase "rgb(255, 127, 80)" /\
  parseColor ("  " ++ "RGB(255, 127, 80)"
                   ++ String (ascii_of_nat 9) (String (ascii_of_nat 10) "")) =
    parseColor "rgb(255, 127, 80)".
Proof.
  split; [reflexivity|]. split; [reflexivity|]. split; [reflexivity|].
  apply (parseColor_ignores_space_and_case "  "
           (String (ascii_of_nat 9) (String (ascii_of_nat 10) ""))
           "RGB(255, 127, 80)" "rgb(255, 127, 80)"); reflexivity.
Defined.

(** **** Separators *)

Lemma split_none (sep : ascii) (a : string) :
  allChars (notChar sep) a = true -> split sep a = [a].
Proof.
  induction a as [|c r IH]; [reflexivity|]. cbn [allChars split]. unfold notChar at 1.
  intros H. apply andb_prop in H as [Hc Hr]. apply negb_true_iff in Hc.
  rewrite Hc, (IH Hr). reflexivity.
Qed.

Lemma split_first (sep : ascii) (a b : string) :
  allChars (notChar sep) a = true ->
  split sep (a ++ String sep b) = a :: split sep b.
Proof.
  induction a as [|c r IH].
  - intros _. cbn [append split]. rewrite Ascii.eqb_refl. reflexivity.
  - cbn [allChars append split]. unfold notChar at 1.
    intros H. apply andb_prop in H as [Hc Hr]. apply negb_true_iff in Hc.
    rewrite Hc, (IH Hr). reflexivity.
Qed.

Lemma indexOfFrom_first (c : ascii) (a b : string) (i : Z) :
  allChars (notChar c) a = true ->
  indexOfFrom c (a ++ String c b) i = i + len a.
Proof.
  revert i. induction a as [|d r IH]; intros i.
  - intros _. cbn [append indexOfFrom]. rewrite Ascii.eqb_refl. unfold len. cbn. lia.
  - cbn [allChars append indexOfFrom]. unfold notChar at 1.
    intros H. apply andb_prop in H as [Hd Hr]. apply negb_true_iff in Hd.
    rewrite Ascii.eqb_sym, Hd, (IH _ Hr). unfold len. cbn [String.length]. lia.
Qed.

(** The cleaned text of an input that starts with a letter of the
    prefix and ends with a character that is not white space. *)
Lemma cleaned_wrapped (a : ascii) (mid : string) (d : ascii) :
  isWhiteSpace a = false -> isWhiteSpace d = false ->
  toLowerCase (trim (String a mid ++ String d "")) =
  String (lowerChar a) (toLowerCase mid) ++ String (lowerChar d) "".
Proof.
  intros Ha Hd. unfold trim. rewrite trimEnd_append_last by exact Hd.
  cbn [append trimStart]. rewrite Ha.
  change (String a (mid ++ String d "")) with (String a mid ++ String d "").
  rewrite toLowerCase_append. reflexivity.
Qed.

(** The payload of the [oklch(] form. *)
Lemma oklch_payload (body : string) (d : ascii) :
  substring ("oklch(" ++ body ++ String d "") 6
            (len ("oklch(" ++ body ++ String d "") - 1) = body.
Proof. exact (substring_middle "oklch(" body d). Qed.

Lemma parseColor_oklch_form (body : string) (d : ascii) :
  isWhiteSpace d = false ->
  parseColor ("oklch(" ++ body ++ String d "") =
  orElse (match nth_error (split "/" (toLowerCase body)) 0 with
          | Some p0 =>
              let values := map Number (splitWhitespace (trim p0)) in
              if (List.length values =? 3)%nat && forallb notNaN values
              then Some (ParseResult.mk "oklch" values) else None
          | None => None
          end) unknown.
Proof.
  intros Hd. unfold parseColor.
  change ("oklch(" ++ body ++ String d "")
    with (String "o" ("klch(" ++ body) ++ String d "").
  rewrite cleaned_wrapped by (reflexivity || exact Hd).
  rewrite toLowerCase_append.
  change (String (lowerChar "o") (toLowerCase "klch(" ++ toLowerCase body)
          ++ String (lowerChar d) "")
    with ("oklch(" ++ toLowerCase body ++ String (lowerChar d) "").
  set (cleaned := "oklch(" ++ toLowerCase body ++ String (lowerChar d) "").
  change (startsWith "oklch(" cleaned) with true.
  change (startsWith "rgb" cleaned) with false.
  change (startsWith "#" cleaned) with false.
  cbn [orElse]. unfold parseOklch, oklchTokens. unfold cleaned.
  rewrite oklch_payload.
  destruct (nth_error (split "/" (toLowerCase body)) 0); reflexivity.
Qed.

(** X9.  In the [oklch(] form everything from the first [/] on is
    dropped: an alpha part, whatever its text, does not change the
    result. *)
Theorem parseColor_oklch_alpha_ignored (body alpha : string) :
  allChars (notChar "/") body = true ->
  parseColor ("oklch(" ++ body ++ "/" ++ alpha ++ ")") =
  parseColor ("oklch(" ++ body ++ ")").
Proof.
  intros H.
  assert (L : allChars (notChar "/") (toLowerCase body) = true)
    by (rewrite toLowerCase_notChar; auto).
  replace ("oklch(" ++ body ++ "/" ++ alpha ++ ")")
    with ("oklch(" ++ (body ++ "/" ++ alpha) ++ ")")
    by (now rewrite !append_assoc).
  rewrite !parseColor_oklch_form by reflexivity.
  rewrite toLowerCase_append.
  change (toLowerCase ("/" ++ alpha)) with (String "/" (toLowerCase alpha)).
  rewrite (split_first "/" _ _ L), (split_none "/" _ L). reflexivity.
Qed.

Lemma parseColor_oklch_alpha_ignored_witness :
  allChars (notChar "/") "0.627 0.277 27.23 " = true /\
  parseColor ("oklch(" ++ "0.627 0.277 27.23 " ++ "/" ++ " 50%" ++ ")") =
  parseColor "oklch(0.627 0.277 27.23 )" /\
  parseColor "oklch(0.627 0.277 27.23 )" =
    ParseResult.mk "oklch" [lit "0.627"; lit "0.277"; lit "27.23"].
Proof.
  split; [reflexivity|]. split; [|evaluate].
  apply (parseColor_oklch_alpha_ignored "0.627 0.277 27.23 " " 50%"). reflexivity.
Defined.

Lemma parseColor_rgb_form (junk body : string) (d : ascii) :
  allChars (notChar "(") junk = true ->
  isWhiteSpace d = false ->
  parseColor ("rgb" ++ junk ++ "(" ++ body ++ String d "") =
  orElse (let values := map (fun v => Number (trim v)) (split "," (toLowerCase body)) in
          if ((List.length values =? 3)%nat || (List.length values =? 4)%nat)
             && forallb notNaN values
          then Some (ParseResult.mk
                       (if (List.length values =? 4)%nat then "rgba" else "rgb") values)
          else None) unknown.
Proof.
  intros Hj Hd.
  assert (L : allChars (notChar "(") (toLowerCase junk) = true)
    by (rewrite toLowerCase_notChar; auto).
  unfold parseColor.
  replace ("rgb" ++ junk ++ "(" ++ body ++ String d "")
    with (String "r" ("gb" ++ junk ++ "(" ++ body) ++ String d "")
    by (cbn [append]; now rewrite !append_assoc).
  rewrite cleaned_wrapped by (reflexivity || exact Hd).
  rewrite !toLowerCase_append.
  change (toLowerCase "gb") with "gb". change (toLowerCase "(") with "(".
  set (lj := toLowerCase junk) in *. set (lb := toLowerCase body).
  set (cleaned := String (lowerChar "r") ("gb" ++ lj ++ "(" ++ lb) ++ String (lowerChar d) "").
  assert (C : cleaned = ("rgb" ++ lj ++ "(") ++ lb ++ String (lowerChar d) "").
  { unfold cleaned. cbn [append]. now rewrite !append_assoc. }
  change (startsWith "oklch(" cleaned) with false.
  change (startsWith "rgb" cleaned) with true.
  change (startsWith "#" cleaned) with false.
  cbn [orElse]. unfold parseRgb, rgbTokens.
  assert (I : indexOf "(" cleaned + 1 = len ("rgb" ++ lj ++ "(")).
  { assert (C' : cleaned = ("rgb" ++ lj) ++ String "(" (lb ++ String (lowerChar d) "")).
    { rewrite C. now rewrite !append_assoc. }
    rewrite C'. unfold indexOf.
    rewrite (indexOfFrom_first "(" ("rgb" ++ lj) _ 0 L).
    unfold len. rewrite <- append_assoc, !length_append. cbn [String.length]. lia. }
  rewrite I, C, substring_middle. reflexivity.
Qed.

Lemma parseColor_rgb_paren (body : string) (d : ascii) :
  parseColor ("rgb(" ++ body ++ String d "") =
  parseColor ("rgb" ++ "" ++ "(" ++ body ++ String d "").
Proof. reflexivity. Qed.



(** X11.  Between [rgb] and the first parenthesis anything may stand:
    the tag of the result is decided by the number of values alone, so
    that [rgba(...)] with three values is tagged [rgb] and [rgb(...)]
    with four is tagged [rgba]. *)
Theorem parseColor_rgb_name_unchecked (junk body : string) :
  allChars (notChar "(") junk = true ->
  parseColor ("rgb" ++ junk ++ "(" ++ body ++ ")") = parseColor ("rgb(" ++ body ++ ")").
Proof.
  intros Hj.
  rewrite (parseColor_rgb_paren body ")").
  rewrite (parseColor_rgb_form junk body ")" Hj eq_refl).
  rewrite (parseColor_rgb_form "" body ")" eq_refl eq_refl). reflexivity.
Qed.

Lemma parseColor_rgb_name_unchecked_witness :
  allChars (notChar "(") "a" = true /\
  parseColor "rgba(255, 127, 80)" = parseColor "rgb(255, 127, 80)" /\
  ParseResult.format (parseColor "rgba(255, 127, 80)") = "rgb" /\
  ParseResult.format (parseColor "rgb(255, 127, 80, 1)") = "rgba".
Proof.
  split; [reflexivity|].
  split; [exact (parseColor_rgb_name_unchecked "a" "255, 127, 80" eq_refl)|].
  split; evaluate.
Defined.

(** *** The bytes of the [#] form *)

Lemma hexPairRange_all :
  forallb (fun a => forallb (hexPairRange a) allAscii) allAscii = true.
Proof. evaluate. Qed.

Lemma hexPairRange_any (a b : ascii) : hexPairRange a b = true.
Proof.
  pose proof hexPairRange_all as H. rewrite forallb_forall in H.
  specialize (H a (allAscii_complete a)). rewrite forallb_forall in H.
  exact (H b (allAscii_complete b)).
Qed.

Lemma hexValue_pair (a b : ascii) :
  notNaN (parseInt (String a (String b "")) 16) = true ->
  hexValue (parseInt (String a (String b "")) 16) = true.
Proof.
  pose proof (hexPairRange_any a b) as H. unfold hexPairRange in H. cbv zeta in H.
  unfold notNaN. destruct (isNaN _); [discriminate|]. intros _. exact H.
Qed.

Lemma parseHex_values (cleaned : string) (r : ParseResult.t) :
  parseHex cleaned = Some r -> forallb hexValue (ParseResult.values r) = true.
Proof.
  unfold parseHex.
  set (hex := if (String.length _ =? 3)%nat then _ else _).
  destruct (Nat.eqb_spec (String.length hex) 6) as [E|]; [|discriminate].
  destruct hex as [|c1 [|c2 [|c3 [|c4 [|c5 [|c6 [|c7 rest]]]]]]]; try discriminate.
  change (substring _ 0 2) with (String c1 (String c2 "")).
  change (substring _ 2 4) with (String c3 (String c4 "")).
  change (substring _ 4 6) with (String c5 (String c6 "")).
  destruct (notNaN (parseInt (String c1 (String c2 "")) 16)) eqn:A; [|discriminate].
  destruct (notNaN (parseInt (String c3 (String c4 "")) 16)) eqn:B; [|discriminate].
  destruct (notNaN (parseInt (String c5 (String c6 "")) 16)) eqn:C; [|discriminate].
  intros [= <-]. cbn [ParseResult.values forallb].
  rewrite (hexValue_pair _ _ A), (hexValue_pair _ _ B), (hexValue_pair _ _ C).
  reflexivity.
Qed.

(** X12.  Every value of a result tagged [hex] is an integer from -15
    to 255.  The lower bound is not 0: [parseInt] accepts a sign, so
    that each pair of characters of [#-f-f-f] is read as -15, and the
    [hex] branch of [convertColor] writes these values as they are. *)
Theorem parseColor_hex_values (input : string) :
  ParseResult.format (parseColor input) = "hex" ->
  forallb hexValue (ParseResult.values (parseColor input)) = true.
Proof.
  unfold parseColor.
  set (cleaned := toLowerCase (trim input)).
  destruct (startsWith "oklch(" cleaned) eqn:S1.
  - destruct (startsWith_oklch_excl cleaned S1) as [-> ->].
    destruct (parseOklch cleaned) as [r|] eqn:P; cbn [orElse].
    + apply parseOklch_shape in P. destruct P as [-> _]. discriminate.
    + discriminate.
  - cbn [orElse]. destruct (startsWith "rgb" cleaned) eqn:S2.
    + destruct (startsWith_rgb_excl cleaned S2) as [_ ->].
      destruct (parseRgb cleaned) as [r|] eqn:P; cbn [orElse].
      * apply parseRgb_shape in P. destruct P as [_ [[-> _]|[-> _]]]; discriminate.
      * discriminate.
    + cbn [orElse]. destruct (startsWith "#" cleaned); [|discriminate].
      destruct (parseHex cleaned) as [r|] eqn:P; cbn [orElse]; [|discriminate].
      intros _. exact (parseHex_values cleaned r P).
Qed.

Lemma parseColor_hex_values_witness :
  ParseResult.format (parseColor "#-f-f-f") = "hex" /\
  forallb hexValue (ParseResult.values (parseColor "#-f-f-f")) = true /\
  parseColor "#-f-f-f" = ParseResult.mk "hex" [ofZ (-15); ofZ (-15); ofZ (-15)] /\
  forall RT : JSRuntime,
    @convertColor RT "hex" [ofZ (-15); ofZ (-15); ofZ (-15)] =
      [ Conversion.mk "oklch" "oklch(0.0000 0.0000 0.00)";
        Conversion.mk "rgb" "rgb(-15, -15, -15)" ].
Proof.
  assert (F : ParseResult.format (parseColor "#-f-f-f") = "hex") by evaluate.
  split; [exact F|]. split; [exact (parseColor_hex_values "#-f-f-f" F)|].
  split; [evaluate|]. intros RT. evaluate.
Defined.

(** *** The conversion *)

Lemma forallb_notNaN (values : list number) :
  forallb notNaN values = negb (existsb isNaN values).
Proof.
  induction values as [|v r IH]; [reflexivity|].
  cbn [forallb existsb]. rewrite IH. unfold notNaN. now rewrite negb_orb.
Qed.

Section WithRuntime.
Context {RT : JSRuntime}.

(** X13.  [convertColor] returns two entries when the tag is one of
    [oklch], [rgb], [rgba] and [hex] and the values are not empty and
    hold no NaN, and no entry in every other case. *)
Theorem convertColor_length (format : string) (values : list number) :
  List.length (convertColor format values) =
    if existsb (String.eqb format) formatTags
       && negb (List.length values =? 0)%nat
       && forallb notNaN values
    then 2%nat else 0%nat.
Proof.
  unfold convertColor, formatTags. cbn [existsb]. rewrite forallb_notNaN.
  destruct (List.length values =? 0)%nat; cbn [orb negb andb];
    [now rewrite andb_false_r|].
  destruct (existsb isNaN values); cbn [orb negb andb];
    [now rewrite andb_false_r|].
  rewrite !andb_true_r, orb_false_r.
  destruct (String.eqb format "oklch").
  { destruct (oklchToRgb _ _ _) as [[r g] b]. reflexivity. }
  destruct (String.eqb format "rgb"); [reflexivity|].
  destruct (String.eqb format "rgba"); [reflexivity|].
  destruct (String.eqb format "hex"); reflexivity.
Qed.

(** Only the first three values are read; a further value matters only
    by being NaN. *)
Lemma convertColor_first_three (format : string) (r g b : number) (rest : list number) :
  existsb isNaN rest = false ->
  convertColor format (r :: g :: b :: rest) = convertColor format [r; g; b].
Proof.
  intros H. unfold convertColor.
  cbn [List.length Nat.eqb existsb at_index nth_error orb].
  rewrite H, !orb_false_r. reflexivity.
Qed.

Lemma convertColor_rgba (values : list number) :
  convertColor "rgba" values = convertColor "rgb" values.
Proof. reflexivity. Qed.

End WithRuntime.

Lemma split_app (sep : ascii) (a b : string) :
  split sep (a ++ String sep b) = (split sep a ++ split sep b)%list.
Proof.
  induction a as [|c r IH].
  - cbn [append split]. rewrite Ascii.eqb_refl. reflexivity.
  - cbn [append split]. rewrite IH.
    destruct (Ascii.eqb c sep); [reflexivity|].
    destruct (split_cons sep r) as (t & ts & ->). reflexivity.
Qed.

Section WithRuntime.
Context {RT : JSRuntime}.

(** X14.  An alpha value is parsed and then dropped: when
    [rgba(body,alpha)] is parsed with the tag [rgba], [rgb(body)] is
    parsed with the tag [rgb] and both are converted to the same
    entries. *)
Theorem rgba_alpha_dropped (body alpha : string) :
  let p4 := parseColor ("rgba(" ++ body ++ "," ++ alpha ++ ")") in
  let p3 := parseColor ("rgb(" ++ body ++ ")") in
  allChars (notChar ",") alpha = true ->
  ParseResult.format p4 = "rgba" ->
  ParseResult.format p3 = "rgb" /\
  convertColor (ParseResult.format p4) (ParseResult.values p4) =
  convertColor (ParseResult.format p3) (ParseResult.values p3).
Proof.
  cbv zeta. intros Ha.
  assert (La : allChars (notChar ",") (toLowerCase alpha) = true)
    by (rewrite toLowerCase_notChar; auto).
  replace ("rgba(" ++ body ++ "," ++ alpha ++ ")")
    with ("rgb" ++ "a" ++ "(" ++ (body ++ "," ++ alpha) ++ ")")
    by (cbn [append]; now rewrite !append_assoc).
  rewrite (parseColor_rgb_form "a" _ ")" eq_refl eq_refl).
  rewrite (parseColor_rgb_paren body ")").
  rewrite (parseColor_rgb_form "" body ")" eq_refl eq_refl).
  rewrite toLowerCase_append.
  change (toLowerCase ("," ++ alpha)) with (String "," (toLowerCase alpha)).
  rewrite split_app, (split_none "," _ La). cbv zeta.
  set (f := fun v => Number (trim v)).
  rewrite map_app. cbn [map].
  set (vs := map f (split "," (toLowerCase body))).
  rewrite forallb_app, length_app. cbn [forallb List.length].
  destruct vs as [|r [|g [|b [|x rest]]]];
    cbn [List.length Nat.add Nat.eqb orb andb app forallb].
  - cbn [orElse unknown ParseResult.format]. discriminate.
  - cbn [orElse unknown ParseResult.format]. discriminate.
  - destruct (_ && _); cbn [orElse unknown ParseResult.format]; discriminate.
  - destruct (notNaN r && (notNaN g && (notNaN b && true))) eqn:N; cbn [andb];
      [|cbn [orElse unknown ParseResult.format]; discriminate].
    destruct (notNaN (f (toLowerCase alpha))) eqn:Na; cbn [andb];
      [|cbn [orElse unknown ParseResult.format]; discriminate].
    cbn [orElse ParseResult.format ParseResult.values]. intros _.
    split; [reflexivity|].
    rewrite convertColor_rgba. apply convertColor_first_three.
    cbn [existsb]. unfold notNaN in Na. destruct (isNaN _); [discriminate|reflexivity].
  - replace (List.length rest + 1)%nat with (S (List.length rest)) by lia.
    cbn [Nat.eqb]. cbn [orElse unknown ParseResult.format]. discriminate.
Qed.

End WithRuntime.

Lemma rgba_alpha_dropped_witness :
  allChars (notChar ",") " 0.5" = true /\
  ParseResult.format (parseColor "rgba(255, 127, 80, 0.5)") = "rgba" /\
  ParseResult.format (parseColor "rgb(255, 127, 80)") = "rgb" /\
  forall RT : JSRuntime,
    @convertColor RT (ParseResult.format (parseColor "rgba(255, 127, 80, 0.5)"))
                     (ParseResult.values (parseColor "rgba(255, 127, 80, 0.5)")) =
    @convertColor RT (ParseResult.format (parseColor "rgb(255, 127, 80)"))
                     (ParseResult.values (parseColor "rgb(255, 127, 80)")).
Proof.
  assert (F : ParseResult.format (parseColor "rgba(255, 127, 80, 0.5)") = "rgba")
    by evaluate.
  split; [reflexivity|]. split; [exact F|]. split; [evaluate|]. intros RT.
  exact (proj2 (@rgba_alpha_dropped RT "255, 127, 80" " 0.5" eq_refl F)).
Defined.

(** *** The [rgb] branch clamps its channels *)

Lemma clamp_not_NaN (x lo hi : number) :
  isNaN x = false -> (lo <=? hi)%num = true -> isNaN (clamp x lo hi) = false.
Proof.
  intros Hx Hb. destruct (clamp_bounds x lo hi Hx Hb) as [B _].
  apply le_not_NaN in B. tauto.
Qed.

Lemma byte_bounds : (lit "0" <=? lit "255")%num = true.
Proof. evaluate. Qed.

Lemma clamp_byte_idempotent (x : number) :
  isNaN x = false ->
  clamp (clamp x (lit "0") (lit "255")) (lit "0") (lit "255") =
  clamp x (lit "0") (lit "255").
Proof.
  intros Hx.
  destruct (clamp_choice x (lit "0") (lit "255") Hx byte_bounds) as [E|[E|E]];
    rewrite E; [exact E|evaluate|evaluate].
Qed.

Lemma clamp_byte_low (x : number) :
  (x <=? lit "0")%num = true -> clamp x (lit "0") (lit "255") = posZero.
Proof.
  rewrite lit_0, lit_255. unfold clamp, Math_max, Math_min, le, SFleb.
  destruct x as [s|s| |s m e]; try destruct s; cbn [SFcompare andb];
  try discriminate; reflexivity.
Qed.

Section WithRuntime.
Context {RT : JSRuntime}.

(** X15.  The [rgb] branch converts the clamped channels: a colour with
    channels outside 0..255, infinite ones included, is converted to
    the same entries as the colour with each channel moved to the
    nearest bound. *)
Theorem convertColor_rgb_clamps (r g b : number) :
  existsb isNaN [r; g; b] = false ->
  convertColor "rgb" [r; g; b] =
  convertColor "rgb" [clamp r (lit "0") (lit "255");
                      clamp g (lit "0") (lit "255");
                      clamp b (lit "0") (lit "255")].
Proof.
  cbn [existsb]. intros H.
  apply orb_false_elim in H as [Hr H]. apply orb_false_elim in H as [Hg H].
  apply orb_false_elim in H as [Hb _].
  unfold convertColor.
  cbn [List.length Nat.eqb existsb at_index nth_error toNumber orb].
  rewrite Hr, Hg, Hb.
  rewrite !(clamp_not_NaN _ _ _) by (assumption || exact byte_bounds).
  cbn [orb]. change (String.eqb "rgb" "oklch") with false.
  change (String.eqb "rgb" "rgb") with true. cbn [orb]. cbv zeta.
  rewrite !clamp_byte_idempotent by assumption. reflexivity.
Qed.

(** X16.  Three channels that are zero or below, [-Infinity] included,
    are converted as black, to the same two texts on every runtime. *)
Theorem convertColor_rgb_black (r g b : number) :
  (r <=? lit "0")%num = true -> (g <=? lit "0")%num = true ->
  (b <=? lit "0")%num = true ->
  convertColor "rgb" [r; g; b] =
    [ Conversion.mk "oklch" "oklch(0.0000 0.0000 0.00)";
      Conversion.mk "hex" "#000000" ].
Proof.
  intros Hr Hg Hb.
  pose proof (proj1 (le_not_NaN _ _ Hr)) as Nr.
  pose proof (proj1 (le_not_NaN _ _ Hg)) as Ng.
  pose proof (proj1 (le_not_NaN _ _ Hb)) as Nb.
  unfold convertColor.
  cbn [List.length Nat.eqb existsb at_index nth_error toNumber orb].
  rewrite Nr, Ng, Nb. cbn [orb].
  change (String.eqb "rgb" "oklch") with false.
  change (String.eqb "rgb" "rgb") with true. cbn [orb]. cbv zeta.
  rewrite (clamp_byte_low r Hr), (clamp_byte_low g Hg), (clamp_byte_low b Hb).
  evaluate.
Qed.

End WithRuntime.

Lemma convertColor_rgb_clamps_witness :
  existsb isNaN [lit "300"; lit "-5"; Infinity] = false /\
  forall RT : JSRuntime,
    @convertColor RT "rgb" [lit "300"; lit "-5"; Infinity] =
    @convertColor RT "rgb" [lit "255"; lit "0"; lit "255"].
Proof.
  split; [reflexivity|]. intros RT.
  assert (E : [clamp (lit "300") (lit "0") (lit "255");
               clamp (lit "-5") (lit "0") (lit "255");
               clamp Infinity (lit "0") (lit "255")]
              = [lit "255"; lit "0"; lit "255"]) by evaluate.
  rewrite <- E.
  apply (@convertColor_rgb_clamps RT (lit "300") (lit "-5") Infinity). reflexivity.
Defined.

Lemma convertColor_rgb_black_witness :
  (lit "-20" <=? lit "0")%num = true /\
  (S754_infinity true <=? lit "0")%num = true /\
  (lit "0" <=? lit "0")%num = true /\
  forall RT : JSRuntime,
    @convertColor RT "rgb" [lit "-20"; S754_infinity true; lit "0"] =
      [ Conversion.mk "oklch" "oklch(0.0000 0.0000 0.00)";
        Conversion.mk "hex" "#000000" ].
Proof.
  split; [evaluate|]. split; [evaluate|]. split; [evaluate|]. intros RT.
  apply (@convertColor_rgb_black RT); evaluate.
Defined.

(** *** The texts written for a byte are read back *)

Lemma byte_listed (n : Z) : 0 <= n <= 255 -> In n bytes.
Proof.
  intros H. unfold bytes. replace n with (Z.of_nat (Z.to_nat n)) by lia.
  apply in_map, in_seq. lia.
Qed.

(** A number in canonical form has a mantissa below 2^53. *)
Lemma valid_mantissa (s : bool) (m : positive) (e : Z) :
  valid_binary prec emax (S754_finite s m e) = true -> Zpos m < 2 ^ 53.
Proof.
  cbn [valid_binary]. unfold bounded, canonical_mantissa. intros H.
  apply andb_prop in H as [H _]. apply Z.eqb_eq in H.
  pose proof (fexp_lower (Zpos (digits2_pos m) + e)) as F.
  change (IntDef.Z.add (Zpos (digits2_pos m)) e) with (Zpos (digits2_pos m) + e) in H.
  rewrite H in F. rewrite digits2_pos_size in F.
  pose proof (Pos.size_gt m) as G.
  assert (P : Zpos (2 ^ Pos.size m) = 2 ^ Zpos (Pos.size m)) by (apply Pos2Z.inj_pow).
  assert (2 ^ Zpos (Pos.size m) <= 2 ^ 53) by (apply Z.pow_le_mono_r; lia).
  lia.
Qed.

(** The integer nearest to a canonical number between 0 and 255. *)
Lemma round_within_byte (m : positive) (e : Z) :
  Zpos m < 2 ^ 53 ->
  e < -45 \/ (e = -45 /\ Zpos m <= 8972014882652160) ->
  0 <= (2 * Zpos m + 2 ^ (- e)) / (2 * 2 ^ (- e)) <= 255.
Proof.
  intros Hm He.
  assert (D : 0 < 2 ^ (- e)) by (apply Z.pow_pos_nonneg; lia).
  set (d := 2 ^ (- e)) in *.
  split; [apply Z.div_pos; lia|].
  apply Z.lt_succ_r. apply Z.div_lt_upper_bound; [lia|].
  destruct He as [He|[He Hm']].
  - assert (2 ^ 46 <= d) by (apply Z.pow_le_mono_r; lia).
    change (2 ^ 53) with (128 * 2 ^ 46) in Hm. lia.
  - assert (d = 2 ^ 45) by (unfold d; rewrite He; reflexivity).
    change (2 ^ 45) with 35184372088832 in *. lia.
Qed.

Lemma round_clamp_byte (x : number) :
  valid_binary prec emax x = true -> isNaN x = false ->
  exists n, 0 <= n <= 255 /\ Math_round (clamp x (lit "0") (lit "255")) = ofZ n.
Proof.
  intros V N.
  destruct (clamp_bounds x _ _ N byte_bounds) as [B1 B2].
  destruct (clamp_choice x _ _ N byte_bounds) as [E|[E|E]].
  - pose proof E as E0. rewrite E in B1, B2. rewrite E. clear E.
    rewrite lit_0 in B1. rewrite lit_255 in B2. unfold le, SFleb in B1, B2.
    destruct x as [s|s| |s m e]; try discriminate.
    + destruct s.
      * vm_compute in E0. discriminate.
      * exists 0. split; [lia|reflexivity].
    + destruct s; discriminate.
    + destruct s; [discriminate|].
      pose proof (valid_mantissa _ _ _ V) as Hm.
      cbn [SFcompare] in B2.
      assert (He : e < -45 \/ (e = -45 /\ Zpos m <= 8972014882652160)).
      { destruct (Z.compare_spec e (-45)) as [Ee|Ee|Ee]; [right|left; exact Ee|discriminate].
        split; [exact Ee|].
        destruct (Pos.compare_cont Eq m 8972014882652160) eqn:C; try discriminate.
        - apply Pos.compare_eq in C. subst. reflexivity.
        - apply Z.lt_le_incl. exact C. }
      pose proof (round_within_byte m e Hm He) as R.
      unfold Math_round.
      assert (L : (0 <=? e) = false) by (apply Z.leb_gt; lia).
      rewrite L. cbn [cond_Zopp].
      set (n := (2 * Zpos m + 2 ^ (- e)) / (2 * 2 ^ (- e))) in *.
      exists n. split; [exact R|].
      destruct (Z.eqb_spec n 0) as [->|_]; reflexivity.
  - rewrite E. exists 0. split; [lia|evaluate].
  - rewrite E. exists 255. split; [lia|evaluate].
Qed.

(** The parser on [#] and three pairs of hexadecimal digits in lower
    case. *)
Lemma parseColor_hex_pairs (x1 x2 x3 : string) :
  String.length x1 = 2%nat -> String.length x2 = 2%nat -> String.length x3 = 2%nat ->
  allChars isHexDigit x3 = true ->
  toLowerCase x1 = x1 -> toLowerCase x2 = x2 -> toLowerCase x3 = x3 ->
  notNaN (parseInt x1 16) && notNaN (parseInt x2 16) && notNaN (parseInt x3 16) = true ->
  parseColor ("#" ++ x1 ++ x2 ++ x3) =
    ParseResult.mk "hex" [parseInt x1 16; parseInt x2 16; parseInt x3 16].
Proof.
  intros L1 L2 L3 H3 W1 W2 W3 N.
  destruct x1 as [|c1 [|c2 [|? ?]]]; try discriminate.
  destruct x2 as [|c3 [|c4 [|? ?]]]; try discriminate.
  destruct x3 as [|c5 [|c6 [|? ?]]]; try discriminate.
  cbn [allChars] in H3. apply andb_prop in H3 as [_ H3]. apply andb_prop in H3 as [H6 _].
  pose proof (proj2 (isHexDigit_listed c6 H6)) as S6.
  unfold parseColor.
  assert (T : trim ("#" ++ String c1 (String c2 "") ++ String c3 (String c4 "")
                        ++ String c5 (String c6 ""))
              = "#" ++ String c1 (String c2 "") ++ String c3 (String c4 "")
                    ++ String c5 (String c6 "")).
  { unfold trim.
    change ("#" ++ String c1 (String c2 "") ++ String c3 (String c4 "")
                ++ String c5 (String c6 ""))
      with (String "#" (String c1 (String c2 (String c3 (String c4 (String c5 "")))))
            ++ String c6 "").
    rewrite trimEnd_append_last by exact S6. reflexivity. }
  rewrite T. rewrite !toLowerCase_append, W1, W2, W3.
  change (toLowerCase "#") with "#".
  change (orElse (parseHex ("#" ++ String c1 (String c2 "") ++ String c3 (String c4 "")
                                ++ String c5 (String c6 ""))) unknown
          = ParseResult.mk "hex"
              [parseInt (String c1 (String c2 "")) 16;
               parseInt (String c3 (String c4 "")) 16;
               parseInt (String c5 (String c6 "")) 16]).
  unfold parseHex.
  change (orElse
    (if notNaN (parseInt (String c1 (String c2 "")) 16)
        && notNaN (parseInt (String c3 (String c4 "")) 16)
        && notNaN (parseInt (String c5 (String c6 "")) 16)
     then Some (ParseResult.mk "hex"
                  [parseInt (String c1 (String c2 "")) 16;
                   parseInt (String c3 (String c4 "")) 16;
                   parseInt (String c5 (String c6 "")) 16])
     else None) unknown
    = ParseResult.mk "hex"
        [parseInt (String c1 (String c2 "")) 16;
         parseInt (String c3 (String c4 "")) 16;
         parseInt (String c5 (String c6 "")) 16]).
  rewrite N. reflexivity.
Qed.

Section WithRuntime.
Context {RT : JSRuntime}.

Lemma byteTexts_all : forallb byteTexts bytes = true.
Proof. evaluate. Qed.

(** What is known of the texts of a byte. *)
Lemma byteTexts_byte (n : Z) :
  0 <= n <= 255 ->
  rgbChannel (ofZ n) /\
  String.length (hexByte (ofZ n)) = 2%nat /\
  allChars isHexDigit (hexByte (ofZ n)) = true /\
  toLowerCase (hexByte (ofZ n)) = hexByte (ofZ n) /\
  parseInt (hexByte (ofZ n)) 16 = ofZ n /\
  Math_round (clamp (ofZ n) (lit "0") (lit "255")) = ofZ n.
Proof.
  intros Hn. pose proof byteTexts_all as A. rewrite forallb_forall in A.
  specialize (A n (byte_listed n Hn)). unfold byteTexts in A. cbv zeta in A.
  repeat (apply andb_prop in A as [A ?]).
  repeat match goal with
  | H : number_eqb _ _ = true |- _ => apply number_eqb_eq in H
  | H : String.eqb _ _ = true |- _ => apply String.eqb_eq in H
  | H : (_ =? _)%nat = true |- _ => apply Nat.eqb_eq in H
  end.
  unfold rgbChannel. repeat split; assumption.
Qed.

Lemma hex_text_read_back (r g b : number) :
  (exists n, 0 <= n <= 255 /\ r = ofZ n) ->
  (exists n, 0 <= n <= 255 /\ g = ofZ n) ->
  (exists n, 0 <= n <= 255 /\ b = ofZ n) ->
  parseColor ("#" ++ hexByte r ++ hexByte g ++ hexByte b) = ParseResult.mk "hex" [r; g; b].
Proof.
  intros (n1 & H1 & ->) (n2 & H2 & ->) (n3 & H3 & ->).
  destruct (byteTexts_byte n1 H1) as ((N1 & _) & L1 & _ & W1 & P1 & _).
  destruct (byteTexts_byte n2 H2) as ((N2 & _) & L2 & _ & W2 & P2 & _).
  destruct (byteTexts_byte n3 H3) as ((N3 & _) & L3 & D3 & W3 & P3 & _).
  rewrite (parseColor_hex_pairs _ _ _ L1 L2 L3 D3 W1 W2 W3).
  - now rewrite P1, P2, P3.
  - now rewrite P1, P2, P3, N1, N2, N3.
Qed.

(** X17.  For channels in canonical form, none of them NaN, the [hex]
    entry of the [rgb] branch is read back by the parser as the three
    channels clamped and rounded, each an integer from 0 to 255. *)
Theorem convertColor_rgb_hex_read_back (r g b : number) :
  valid_binary prec emax r = true ->
  valid_binary prec emax g = true ->
  valid_binary prec emax b = true ->
  existsb isNaN [r; g; b] = false ->
  exists o text n1 n2 n3,
    convertColor "rgb" [r; g; b] = [o; Conversion.mk "hex" text] /\
    parseColor text = ParseResult.mk "hex" [ofZ n1; ofZ n2; ofZ n3] /\
    0 <= n1 <= 255 /\ 0 <= n2 <= 255 /\ 0 <= n3 <= 255 /\
    Math_round (clamp r (lit "0") (lit "255")) = ofZ n1 /\
    Math_round (clamp g (lit "0") (lit "255")) = ofZ n2 /\
    Math_round (clamp b (lit "0") (lit "255")) = ofZ n3.
Proof.
  intros Vr Vg Vb H. cbn [existsb] in H.
  apply orb_false_elim in H as [Nr H]. apply orb_false_elim in H as [Ng H].
  apply orb_false_elim in H as [Nb _].
  destruct (round_clamp_byte r Vr Nr) as (n1 & H1 & E1).
  destruct (round_clamp_byte g Vg Ng) as (n2 & H2 & E2).
  destruct (round_clamp_byte b Vb Nb) as (n3 & H3 & E3).
  destruct (convertColor_rgb_hex r g b) as [o Ho];
    try (unfold notNaN; rewrite ?Nr, ?Ng, ?Nb; reflexivity).
  rewrite E1, E2, E3 in Ho.
  exists o, ("#" ++ hexByte (ofZ n1) ++ hexByte (ofZ n2) ++ hexByte (ofZ n3)), n1, n2, n3.
  split; [exact Ho|]. split; [|tauto].
  apply hex_text_read_back; eauto.
Qed.

(** X18.  When no channel computed for an [oklch] colour is NaN, the
    two entries of the [oklch] branch denote the same colour: the
    parser reads the [rgb] entry and the [hex] entry back as the three
    computed channels. *)
Theorem convertColor_oklch_entries_agree (l c h : number) :
  let rgb := oklchToRgb (Some l) (Some c) (Some h) in
  let r := fst (fst rgb) in
  let g := snd (fst rgb) in
  let b := snd rgb in
  existsb isNaN [l; c; h] = false ->
  existsb isNaN [r; g; b] = false ->
  exists rgbEntry hexEntry,
    convertColor "oklch" [l; c; h] =
      [Conversion.mk "rgb" rgbEntry; Conversion.mk "hex" hexEntry] /\
    parseColor rgbEntry = ParseResult.mk "rgb" [r; g; b] /\
    parseColor hexEntry = ParseResult.mk "hex" [r; g; b].
Proof.
  cbv zeta. intros Hin Hout.
  pose proof (oklchToRgb_channels (Some l) (Some c) (Some h)) as B.
  unfold convertColor. cbn [List.length Nat.eqb orb at_index nth_error].
  rewrite Hin. change (String.eqb "oklch" "oklch") with true. cbv iota.
  destruct (oklchToRgb (Some l) (Some c) (Some h)) as [[r g] b].
  cbn [fst snd] in Hout |- *. cbn [existsb] in Hout.
  apply orb_false_elim in Hout as [Nr Hout]. apply orb_false_elim in Hout as [Ng Hout].
  apply orb_false_elim in Hout as [Nb _].
  destruct B as (Br & Bg & Bb).
  destruct Br as [Br|Br]; [congruence|]. destruct Bg as [Bg|Bg]; [congruence|].
  destruct Bb as [Bb|Bb]; [congruence|].
  eexists _, _. split; [reflexivity|]. split.
  - destruct Br as (n1 & H1 & ->), Bg as (n2 & H2 & ->), Bb as (n3 & H3 & ->).
    apply (parseColor_rgbText (ofZ n1) (ofZ n2) (ofZ n3));
      apply byteTexts_byte; assumption.
  - cbn [map join String.concat].
    change ("#" ++ String.concat "" [hexByte r; hexByte g; hexByte b])
      with ("#" ++ hexByte r ++ hexByte g ++ hexByte b).
    apply hex_text_read_back; assumption.
Qed.

End WithRuntime.

Lemma convertColor_rgb_hex_read_back_witness :
  valid_binary prec emax (lit "300") = true /\
  valid_binary prec emax (lit "126.5") = true /\
  valid_binary prec emax (lit "-0.2") = true /\
  existsb isNaN [lit "300"; lit "126.5"; lit "-0.2"] = false /\
  forall RT : JSRuntime,
    exists o text n1 n2 n3,
      @convertColor RT "rgb" [lit "300"; lit "126.5"; lit "-0.2"] =
        [o; Conversion.mk "hex" text] /\
      parseColor text = ParseResult.mk "hex" [ofZ n1; ofZ n2; ofZ n3] /\
      0 <= n1 <= 255 /\ 0 <= n2 <= 255 /\ 0 <= n3 <= 255 /\
      Math_round (clamp (lit "300") (lit "0") (lit "255")) = ofZ n1 /\
      Math_round (clamp (lit "126.5") (lit "0") (lit "255")) = ofZ n2 /\
      Math_round (clamp (lit "-0.2") (lit "0") (lit "255")) = ofZ n3.
Proof.
  split; [evaluate|]. split; [evaluate|]. split; [evaluate|]. split; [reflexivity|].
  intros RT.
  apply (@convertColor_rgb_hex_read_back RT (lit "300") (lit "126.5") (lit "-0.2"));
    [evaluate|evaluate|evaluate|reflexivity].
Defined.

Lemma convertColor_oklch_entries_agree_witness :
  existsb isNaN [lit "0"; lit "0"; lit "0"] = false /\
  forall RT : JSRuntime,
    @oklchToRgb RT (Some (lit "0")) (Some (lit "0")) (Some (lit "0")) =
      (posZero, posZero, posZero) /\
    exists rgbEntry hexEntry,
      @convertColor RT "oklch" [lit "0"; lit "0"; lit "0"] =
        [Conversion.mk "rgb" rgbEntry; Conversion.mk "hex" hexEntry] /\
      parseColor rgbEntry = ParseResult.mk "rgb" [posZero; posZero; posZero] /\
      parseColor hexEntry = ParseResult.mk "hex" [posZero; posZero; posZero].
Proof.
  split; [reflexivity|]. intros RT.
  assert (E : @oklchToRgb RT (Some (lit "0")) (Some (lit "0")) (Some (lit "0")) =
              (posZero, posZero, posZero)) by evaluate.
  split; [exact E|].
  pose proof (@convertColor_oklch_entries_agree RT (lit "0") (lit "0") (lit "0")) as H.
  cbv zeta in H. rewrite E in H. apply H; reflexivity.
Defined.

(** *** The page *)

Lemma parseColor_empty : parseColor "" = unknown.
Proof. reflexivity. Qed.

Lemma parsed_not_empty (value : string) :
  ParseResult.format (parseColor value) <> "unknown" -> nonEmpty value = true.
Proof.
  destruct value; [|reflexivity]. rewrite parseColor_empty. intros H. now elim H.
Qed.

(** The tag and the values of a result that is not the unknown one. *)
Lemma parseColor_known (value : string) :
  ParseResult.format (parseColor value) <> "unknown" ->
  forallb notNaN (ParseResult.values (parseColor value)) = true /\
  ((ParseResult.format (parseColor value) = "oklch" \/
    ParseResult.format (parseColor value) = "rgb" \/
    ParseResult.format (parseColor value) = "hex") /\
   (exists r g b, ParseResult.values (parseColor value) = [r; g; b]) \/
   ParseResult.format (parseColor value) = "rgba" /\
   (exists r g b a, ParseResult.values (parseColor value) = [r; g; b; a])).
Proof.
  intros K.
  destruct (parseColor_cases value) as [U | [N C]]; [rewrite U in K; now elim K|].
  split; [exact N|].
  destruct (ParseResult.values (parseColor value)) as [|r [|g [|b [|a [|x rest]]]]];
    destruct C as [[F L]|[[F L]|[[F L]|[F L]]]]; try discriminate L.
  - left. split; [tauto|]. now exists r, g, b.
  - left. split; [tauto|]. now exists r, g, b.
  - left. split; [tauto|]. now exists r, g, b.
  - right. split; [exact F|]. now exists r, g, b, a.
Qed.

Section WithRuntime.
Context {RT : JSRuntime}.

Lemma rgbOf_not_empty (rgb : number * number * number) : nonEmpty (rgbOf rgb) = true.
Proof. destruct rgb as [[r g] b]. reflexivity. Qed.

(** After a value that the parser accepts, the handler has two
    conversions and a preview colour. *)
Lemma handleColorChange_accepted (value : string) :
  ParseResult.format (parseColor value) <> "unknown" ->
  List.length (PageState.conversions (handleColorChange value)) = 2%nat /\
  nonEmpty (PageState.previewColor (handleColorChange value)) = true.
Proof.
  intros K. destruct (parseColor_known value K) as [N C].
  unfold handleColorChange. cbv zeta. rewrite N.
  destruct (String.eqb_spec (ParseResult.format (parseColor value)) "unknown") as [U|_];
    [now elim K|].
  cbn [negb andb PageState.conversions PageState.previewColor].
  assert (V : ParseResult.values (parseColor value) <> []).
  { destruct C as [[_ (r & g & b & ->)]|[_ (r & g & b & a & ->)]]; discriminate. }
  pose proof (convertColor_formats_of (ParseResult.format (parseColor value)) _ V N) as M.
  apply (f_equal (@List.length string)) in M. rewrite length_map in M. rewrite M.
  destruct C as [[[F|[F|F]] _]|[F _]]; rewrite F; cbn [String.eqb Ascii.eqb Bool.eqb orb];
    split; try reflexivity; apply rgbOf_not_empty.
Qed.

(** After any other value the handler has no conversion and no preview
    colour. *)
Lemma handleColorChange_refused (value : string) :
  ParseResult.format (parseColor value) = "unknown" ->
  handleColorChange value = PageState.mk value [] "".
Proof. intros U. unfold handleColorChange. cbv zeta. rewrite U. reflexivity. Qed.

Lemma handleColorChange_input (value : string) :
  PageState.input (handleColorChange value) = value.
Proof. unfold handleColorChange. cbv zeta. destruct (_ && _); reflexivity. Qed.

Lemma handleColorChange_shown (value : string) :
  let st := handleColorChange value in
  showsConversions st = negb (String.eqb (ParseResult.format (parseColor value)) "unknown") /\
  showsSwatch st = showsConversions st /\
  showsInvalid st = nonEmpty value && negb (showsConversions st) /\
  showsHint st = negb (nonEmpty value) /\
  panelsShown st = 1%nat.
Proof.
  cbv zeta. unfold panelsShown, showsConversions, showsSwatch, showsInvalid, showsHint.
  rewrite handleColorChange_input.
  destruct (String.eqb_spec (ParseResult.format (parseColor value)) "unknown") as [U|K].
  - rewrite (handleColorChange_refused value U).
    cbn [PageState.conversions PageState.previewColor List.length nonEmpty Nat.ltb Nat.leb
         Nat.eqb negb].
    rewrite andb_true_r. destruct (nonEmpty value); repeat split; reflexivity.
  - destruct (handleColorChange_accepted value K) as [L P].
    rewrite L, P, (parsed_not_empty value K). repeat split; reflexivity.
Qed.

(** X19.  After every input exactly one of the three panels below the
    input field is shown: the conversions when the parser accepts the
    input, the message for an invalid colour when the input is not empty
    and is not accepted, the hint when the input is empty.  The preview
    swatch is shown exactly with the conversions. *)
Theorem handleColorChange_panels (value : string) :
  let st := handleColorChange value in
  showsConversions st = negb (String.eqb (ParseResult.format (parseColor value)) "unknown") /\
  showsSwatch st = showsConversions st /\
  showsInvalid st = nonEmpty value && negb (showsConversions st) /\
  showsHint st = negb (nonEmpty value) /\
  panelsShown st = 1%nat.
Proof. exact (handleColorChange_shown value). Qed.

Lemma cardBackground_preview (value : string) :
  ParseResult.format (parseColor value) = "oklch" \/
  ParseResult.format (parseColor value) = "hex" \/
  (ParseResult.format (parseColor value) = "rgb" /\
   forallb clampKept (ParseResult.values (parseColor value)) = true) ->
  cardBackground value = PageState.previewColor (handleColorChange value).
Proof.
  intros H.
  assert (K : ParseResult.format (parseColor value) <> "unknown").
  { destruct H as [F|[F|[F _]]]; rewrite F; discriminate. }
  destruct (parseColor_known value K) as [N C].
  unfold cardBackground, handleColorChange. cbv zeta. rewrite N.
  destruct C as [[_ (r & g & b & V)]|[F _]];
    [|destruct H as [F'|[F'|[F' _]]]; rewrite F' in F; discriminate].
  rewrite V in *. cbn [List.length Nat.eqb andb].
  destruct H as [F|[F|[F R]]]; rewrite F; cbn [String.eqb Ascii.eqb Bool.eqb negb andb orb];
    cbn [PageState.previewColor]; try reflexivity.
  cbn [forallb] in R. unfold clampKept in R.
  apply andb_prop in R as [Rr R]. apply andb_prop in R as [Rg R].
  apply andb_prop in R as [Rb _].
  apply number_eqb_eq in Rr, Rg, Rb.
  cbn [at_index nth_error toNumber interpolate]. rewrite Rr, Rg, Rb. reflexivity.
Qed.

(** X20.  An example card and the preview swatch show the same colour
    for a value tagged [oklch] or [hex], and for a value tagged [rgb]
    whose channels lie within 0..255: the background computed by
    [ColorCard] is the preview colour set by the handler.  (The card
    does not clamp the channels of an [rgb] value; the handler does.) *)
Theorem cardBackground_is_preview (value : string) :
  ParseResult.format (parseColor value) = "oklch" \/
  ParseResult.format (parseColor value) = "hex" \/
  (ParseResult.format (parseColor value) = "rgb" /\
   forallb clampKept (ParseResult.values (parseColor value)) = true) ->
  cardBackground value = PageState.previewColor (handleColorChange value).
Proof. exact (cardBackground_preview value). Qed.

(** X21.  Every example of the gallery is accepted: clicking its card
    shows the conversions and the swatch, never the message for an
    invalid colour, and the swatch has the colour of the card. *)
Theorem exampleColors_accepted :
  Forall (fun e =>
            let st := handleColorChange (Example.value e) in
            showsConversions st = true /\ showsSwatch st = true /\
            showsInvalid st = false /\
            cardBackground (Example.value e) = PageState.previewColor st)
         exampleColors.
Proof.
  unfold exampleColors.
  repeat (apply Forall_cons || apply Forall_nil); cbn [Example.value]; cbv zeta;
  match goal with |- context [handleColorChange ?v] =>
    let F := fresh "F" in
    assert (F : exists t, ParseResult.format (parseColor v) = t /\ t <> "unknown" /\
                 (t = "oklch" \/ t = "hex" \/
                  (t = "rgb" /\ forallb clampKept (ParseResult.values (parseColor v)) = true)))
      by (eexists; split; [vm_compute; reflexivity|];
          split; [discriminate|]; first
            [ left; reflexivity
            | right; left; reflexivity
            | right; right; split; [reflexivity|vm_compute; reflexivity] ]);
    destruct F as (t & Ft & Kt & Ct);
    destruct (handleColorChange_shown v) as (S1 & S2 & S3 & _);
    rewrite S3, S2, S1, Ft;
    assert (Et : String.eqb t "unknown" = false) by (apply String.eqb_neq; exact Kt);
    rewrite Et; cbn [negb andb]; rewrite andb_false_r;
    repeat split; apply cardBackground_preview; rewrite Ft; exact Ct
  end.
Qed.

End WithRuntime.

Lemma cardBackground_is_preview_witness :
  (ParseResult.format (parseColor "rgb(255, 127, 80)") = "oklch" \/
   ParseResult.format (parseColor "rgb(255, 127, 80)") = "hex" \/
   (ParseResult.format (parseColor "rgb(255, 127, 80)") = "rgb" /\
    forallb clampKept (ParseResult.values (parseColor "rgb(255, 127, 80)")) = true)) /\
  forall RT : JSRuntime,
    @cardBackground RT "rgb(255, 127, 80)" =
      PageState.previewColor (@handleColorChange RT "rgb(255, 127, 80)") /\
    @cardBackground RT "rgb(255, 127, 80)" = "rgb(255, 127, 80)".
Proof.
  assert (H : ParseResult.format (parseColor "rgb(255, 127, 80)") = "oklch" \/
              ParseResult.format (parseColor "rgb(255, 127, 80)") = "hex" \/
              (ParseResult.format (parseColor "rgb(255, 127, 80)") = "rgb" /\
               forallb clampKept (ParseResult.values (parseColor "rgb(255, 127, 80)")) = true))
    by (right; right; split; evaluate).
  split; [exact H|]. intros RT.
  split; [exact (@cardBackground_is_preview RT "rgb(255, 127, 80)" H)|evaluate].
Defined.

(** *** The preview of a hexadecimal colour *)

Lemma toLowerCase_idempotent (s : string) : toLowerCase (toLowerCase s) = toLowerCase s.
Proof.
  induction s as [|c r IH]; [reflexivity|]. cbn [toLowerCase]. rewrite IH. f_equal.
  pose proof (lowerCharKeeps_all c) as H. unfold lowerCharKeeps in H.
  apply andb_prop in H as [_ H]. apply Ascii.eqb_eq. exact H.
Qed.

Lemma parseColor_lower (s : string) : parseColor (toLowerCase s) = parseColor s.
Proof.
  apply parseColor_cleaned. now rewrite <- toLowerCase_trim, toLowerCase_idempotent.
Qed.

Section WithRuntime.
Context {RT : JSRuntime}.

Lemma hexPairWritten_listed :
  forallb (fun a => forallb (hexPairWritten a) hexDigits) hexDigits = true.
Proof. evaluate. Qed.

Lemma hexPairWritten_all (c1 c2 : ascii) :
  isHexDigit c1 = true -> isHexDigit c2 = true ->
  let a := lowerChar c1 in
  let b := lowerChar c2 in
  notNaN (parseInt (String a (String b "")) 16) = true /\
  isHexDigit a = true /\ isHexDigit b = true /\
  hexByte (parseInt (String a (String b "")) 16) = String a (String b "").
Proof.
  intros H1 H2. pose proof hexPairWritten_listed as A.
  rewrite forallb_forall in A. specialize (A c1 (proj1 (isHexDigit_listed c1 H1))).
  rewrite forallb_forall in A. specialize (A c2 (proj1 (isHexDigit_listed c2 H2))).
  unfold hexPairWritten in A. cbv zeta in A |- *.
  repeat (apply andb_prop in A as [A ?]).
  repeat split; try assumption. now apply String.eqb_eq.
Qed.

(** The preview colour depends on the input through the parser only. *)
Lemma previewColor_parsed (v v' : string) :
  parseColor v = parseColor v' ->
  PageState.previewColor (handleColorChange v) =
  PageState.previewColor (handleColorChange v').
Proof.
  intros E. unfold handleColorChange. cbv zeta. rewrite E.
  destruct (_ && _); reflexivity.
Qed.

Lemma previewColor_hex6 (body : string) :
  String.length body = 6%nat -> allChars isHexDigit body = true ->
  PageState.previewColor (handleColorChange ("#" ++ body)) = "#" ++ toLowerCase body.
Proof.
  intros Hlen Hall.
  destruct body as [|c1 [|c2 [|c3 [|c4 [|c5 [|c6 [|c7 rest]]]]]]]; try discriminate.
  cbn [allChars] in Hall. repeat (apply andb_prop in Hall as [? Hall]).
  match goal with
  | H1 : isHexDigit c1 = true, H2 : isHexDigit c2 = true, H3 : isHexDigit c3 = true,
    H4 : isHexDigit c4 = true, H5 : isHexDigit c5 = true, H6 : isHexDigit c6 = true |- _ =>
      destruct (hexPairWritten_all c1 c2 H1 H2) as (N1 & _ & _ & W1);
      destruct (hexPairWritten_all c3 c4 H3 H4) as (N2 & _ & _ & W2);
      destruct (hexPairWritten_all c5 c6 H5 H6) as (N3 & D5 & D6 & W3)
  end.
  set (x1 := String (lowerChar c1) (String (lowerChar c2) "")) in *.
  set (x2 := String (lowerChar c3) (String (lowerChar c4) "")) in *.
  set (x3 := String (lowerChar c5) (String (lowerChar c6) "")) in *.
  set (input := "#" ++ String c1 (String c2 (String c3 (String c4 (String c5 (String c6 "")))))).
  assert (P : parseColor input =
              ParseResult.mk "hex" [parseInt x1 16; parseInt x2 16; parseInt x3 16]).
  { rewrite <- (parseColor_lower input).
    change (toLowerCase input) with ("#" ++ x1 ++ x2 ++ x3).
    apply parseColor_hex_pairs; try reflexivity.
    - unfold x3. cbn [allChars]. now rewrite D5, D6.
    - exact (toLowerCase_idempotent (String c1 (String c2 ""))).
    - exact (toLowerCase_idempotent (String c3 (String c4 ""))).
    - exact (toLowerCase_idempotent (String c5 (String c6 ""))).
    - now rewrite N1, N2, N3. }
  unfold handleColorChange. cbv zeta. rewrite P.
  cbn [ParseResult.format ParseResult.values forallb].
  rewrite N1, N2, N3.
  change (PageState.previewColor _)
    with ("#" ++ hexByte (parseInt x1 16) ++ hexByte (parseInt x2 16)
              ++ hexByte (parseInt x3 16)).
  rewrite W1, W2, W3. reflexivity.
Qed.

(** X22.  The preview of a hexadecimal colour is its normal form: for
    [#] and 6 hexadecimal digits the same text in lower case, and for the
    shorthand of 3 digits the 6 digits that double them, in lower case. *)
Theorem handleColorChange_hex_preview (body : string) (x y z : ascii) :
  String.length body = 6%nat -> allChars isHexDigit body = true ->
  isHexDigit x = true -> isHexDigit y = true -> isHexDigit z = true ->
  PageState.previewColor (handleColorChange ("#" ++ body)) = "#" ++ toLowerCase body /\
  PageState.previewColor (handleColorChange (String "#" (String x (String y (String z ""))))) =
    "#" ++ toLowerCase (doubled x y z).
Proof.
  intros Hlen Hall Hx Hy Hz. split; [exact (previewColor_hex6 body Hlen Hall)|].
  rewrite (previewColor_parsed _ _ (parseColor_shorthand_any x y z)).
  apply (previewColor_hex6 (doubled x y z)); [reflexivity|].
  cbn [doubled allChars]. now rewrite Hx, Hy, Hz.
Qed.

End WithRuntime.

Lemma handleColorChange_hex_preview_witness :
  String.length "FF7f50" = 6%nat /\
  allChars isHexDigit "FF7f50" = true /\
  isHexDigit "A" = true /\ isHexDigit "b" = true /\ isHexDigit "C" = true /\
  forall RT : JSRuntime,
    PageState.previewColor (@handleColorChange RT "#FF7f50") = "#ff7f50" /\
    PageState.previewColor (@handleColorChange RT "#AbC") = "#aabbcc".
Proof.
  do 5 (split; [reflexivity|]). intros RT.
  exact (@handleColorChange_hex_preview RT "FF7f50" "A" "b" "C"
           eq_refl eq_refl eq_refl eq_refl eq_refl).
Defined.

End Behaviour.
